(** * BullmartX: the TradingView-to-Telegram relay of [src/bot.py]

    A shallow embedding of the formatters [format_entry_signal],
    [format_exit_signal], [format_update_signal] and of the body of
    [webhook_handler], with the module-level dictionary [position_states]
    as explicit state and the calls that leave the process (the Telegram
    send, the logger) recorded in a chronological trace.

    Modelling choices:
    - a Python [str] is a [string]: the bytes of its UTF-8 encoding.
      [lower] and [upper] map the ASCII letters and [strip] removes the
      ASCII white space. Python also maps cased letters and strips white
      space outside ASCII; no such letter maps into a keyword that the
      handler searches for or into the word it compares the direction
      with, so the branches taken are Python's on every string, and the
      texts are Python's on ASCII fields;
    - a JSON number is a binary64 [float], Python's [float], with the
      kernel's IEEE-754 operations; the integer [0] that the code uses as
      a default is the float zero, which subtracts, compares and prints
      alike. Python integers beyond 2^53 are outside the model;
    - a payload is the JSON object restricted to the keys the code reads,
      each one optional and of the type the code uses it at:
      [data.get(k, d)] is [get (k data) d];
    - [datetime.utcnow().isoformat()] is a reading of a clock passed in;
    - the handler is modelled from line 232 on, for a request that passed
      the authorisation check and whose body parsed, and one request at a
      time: what other requests do while this one awaits the send is
      outside the model. The module [Service] further down models the
      whole file around it: the authorisation check, the exceptions, the
      client that may fail, start-up, /health and /test. *)

From Stdlib Require Import ZArith String Ascii List Bool DecimalString.
From Stdlib Require Import Floats.
From stdpp Require Import base option strings gmap.

Set Warnings "-inexact-float".

Local Open Scope string_scope.
Local Open Scope Z_scope.

(** ** Python strings *)

Module Str.

Definition LF : string := String (ascii_of_nat 10) EmptyString.

Definition lower_ascii (c : ascii) : ascii :=
  let n := nat_of_ascii c in
  if (65 <=? n)%nat && (n <=? 90)%nat then ascii_of_nat (n + 32) else c.

Definition upper_ascii (c : ascii) : ascii :=
  let n := nat_of_ascii c in
  if (97 <=? n)%nat && (n <=? 122)%nat then ascii_of_nat (n - 32) else c.

(** [s.lower()] and [s.upper()] *)
Fixpoint lower (s : string) : string :=
  match s with
  | EmptyString => EmptyString
  | String c s' => String (lower_ascii c) (lower s')
  end.

Fixpoint upper (s : string) : string :=
  match s with
  | EmptyString => EmptyString
  | String c s' => String (upper_ascii c) (upper s')
  end.

(** [s.startswith(p)] *)
Fixpoint startswith (p s : string) : bool :=
  match p, s with
  | EmptyString, _ => true
  | String a p', String b s' => Ascii.eqb a b && startswith p' s'
  | String _ _, EmptyString => false
  end.

(** [sub in s] *)
Fixpoint contains (sub s : string) : bool :=
  startswith sub s ||
  match s with
  | EmptyString => false
  | String _ s' => contains sub s'
  end.

(** White space of [str.strip()] in the ASCII range: tab, line feed,
    vertical tab, form feed, carriage return, the separators 28 to 31,
    and the space. *)
Definition is_space (c : ascii) : bool :=
  let n := nat_of_ascii c in
  ((9 <=? n)%nat && (n <=? 13)%nat) || ((28 <=? n)%nat && (n <=? 32)%nat).

Fixpoint lstrip (s : string) : string :=
  match s with
  | EmptyString => EmptyString
  | String c s' => if is_space c then lstrip s' else s
  end.

Fixpoint rstrip (s : string) : string :=
  match s with
  | EmptyString => EmptyString
  | String c s' =>
      match rstrip s' with
      | EmptyString => if is_space c then EmptyString else String c EmptyString
      | r => String c r
      end
  end.

(** [s.strip()] *)
Definition strip (s : string) : string := rstrip (lstrip s).

End Str.

(** ** Python floats and the format specification [.Nf] *)

Module Num.

Local Open Scope float_scope.

(** [n / d] rounded to the nearest integer, ties to even ([0 <= n], [0 < d]) *)
Definition round_half_even (n d : Z) : Z :=
  let q := (n / d)%Z in
  let r := (n mod d)%Z in
  match (2 * r ?= d)%Z with
  | Lt => q
  | Gt => (q + 1)%Z
  | Eq => if Z.even q then q else (q + 1)%Z
  end.

(** the integer nearest to [m * 2^e * 10^digits] *)
Definition scaled (digits : nat) (m : positive) (e : Z) : Z :=
  let p := (10 ^ Z.of_nat digits)%Z in
  if (0 <=? e)%Z then (Z.pos m * 2 ^ e * p)%Z
  else round_half_even (Z.pos m * p) (2 ^ (- e)).

Fixpoint zeros (n : nat) : string :=
  match n with
  | O => EmptyString
  | S n' => String "0" (zeros n')
  end.

(** the decimal numeral of [n >= 0] with the point before its last
    [digits] digits, as ["%.*f"] writes it *)
Definition fixed_point (digits : nat) (n : Z) : string :=
  let s := NilZero.string_of_uint (N.to_uint (Z.to_N n)) in
  let s := zeros (S digits - String.length s) +:+ s in
  let k := (String.length s - digits)%nat in
  if (digits =? 0)%nat then s
  else substring 0 k s +:+ "." +:+ substring k digits s.

(** [format(x, ".{digits}f")]: the decimal expansion of the exact value of
    [x], correctly rounded to [digits] places; the sign is kept on zeros
    and on values that round to zero. *)
Definition format_f (digits : nat) (x : float) : string :=
  match Prim2SF x with
  | S754_nan => "nan"
  | S754_infinity s => if s then "-inf" else "inf"
  | S754_zero s => (if s then "-" else "") +:+ fixed_point digits 0
  | S754_finite s m e =>
      (if s then "-" else "") +:+ fixed_point digits (scaled digits m e)
  end.

End Num.

(** ** The data model *)

(** [data.get(key, default)] on a key that is optional *)
Definition get {A : Type} (field : option A) (default : A) : A :=
  match field with
  | Some v => v
  | None => default
  end.

(** The webhook payload: the keys of the JSON object that the code reads. *)
Module Payload.

Record t : Type := mk {
  signal_type : option string;
  symbol : option string;
  timeframe : option string;
  price : option float;
  momentum : option float;
  vwap : option float;
  tp_price : option float;
  sl_price : option float;
  direction : option string;
  entry_price : option float;
  update_type : option string;
  message : option string;
  timestamp : option string
}.

(** [payload['direction'] = v] *)
Definition set_direction (v : string) (p : t) : t :=
  mk (signal_type p) (symbol p) (timeframe p) (price p) (momentum p) (vwap p)
     (tp_price p) (sl_price p) (Some v) (entry_price p) (update_type p)
     (message p) (timestamp p).

(** [payload['entry_price'] = v] *)
Definition set_entry_price (v : float) (p : t) : t :=
  mk (signal_type p) (symbol p) (timeframe p) (price p) (momentum p) (vwap p)
     (tp_price p) (sl_price p) (direction p) (Some v) (update_type p)
     (message p) (timestamp p).

End Payload.

(** A value of [position_states]: the dictionary written by the entry
    branch (four keys) and completed by the exit branch (two more). *)
Module PositionState.

Record t : Type := mk {
  status : option string;
  entry_time : option string;
  entry_price : option float;
  direction : option string;
  tp_price : option float;
  sl_price : option float
}.

(** [state['status'] = v], [state['tp_price'] = v], [state['sl_price'] = v] *)
Definition set_status (v : string) (s : t) : t :=
  mk (Some v) (entry_time s) (entry_price s) (direction s) (tp_price s) (sl_price s).

Definition set_tp_price (v : float) (s : t) : t :=
  mk (status s) (entry_time s) (entry_price s) (direction s) (Some v) (sl_price s).

Definition set_sl_price (v : float) (s : t) : t :=
  mk (status s) (entry_time s) (entry_price s) (direction s) (tp_price s) (Some v).

End PositionState.

(** ** The formatters (lines 79 to 177) *)

Module Bot.

Import Str Num.
Local Open Scope float_scope.

(** line 99, the conditional inside the f-string:
    ['(ниже -5.1)' if momentum < -5.1 else '(выше +5.1)'] *)
Definition momentum_qualifier (momentum : float) : string :=
  if (momentum <? -5.1) then "(ниже -5.1)" else "(выше +5.1)".

Definition format_entry_signal (now : string) (data : Payload.t) : string :=
  let signal_type := get (Payload.signal_type data) "unknown" in
  let direction :=
    if contains "long" (lower signal_type) then "🟢 LONG" else "🔴 SHORT" in
  let symbol := get (Payload.symbol data) "UNKNOWN" in
  let timeframe := get (Payload.timeframe data) "7m" in
  let price := get (Payload.price data) 0 in
  let momentum := get (Payload.momentum data) 0 in
  let vwap := get (Payload.vwap data) 0 in
  let timestamp := get (Payload.timestamp data) now in
  let message :=
    LF +:+
    direction +:+ " ВХОД В ПОЗИЦИЮ" +:+ LF +:+
    LF +:+
    "<b>Символ:</b> " +:+ symbol +:+ LF +:+
    "<b>Таймфрейм:</b> " +:+ timeframe +:+ LF +:+
    "<b>Цена:</b> $" +:+ format_f 6 price +:+ LF +:+
    LF +:+
    "📊 <b>Индикаторы:</b>" +:+ LF +:+
    "• Momentum: " +:+ format_f 2 momentum +:+ " " +:+
      momentum_qualifier momentum +:+ LF +:+
    "• VWAP: $" +:+ format_f 6 vwap +:+ LF +:+
    LF +:+
    "⏰ <b>Время:</b> " +:+ timestamp +:+ LF +:+
    LF +:+
    "<i>Начат набор позиции. Ожидайте уведомление с TP/SL...</i>" +:+ LF in
  strip message.

(** lines 120 to 125: the pair [(risk, reward)] *)
Definition risk_reward (direction : string)
    (entry_price tp_price sl_price : float) : float * float :=
  if String.eqb (upper direction) "LONG" then
    (abs (entry_price - sl_price), abs (tp_price - entry_price))
  else
    (abs (sl_price - entry_price), abs (entry_price - tp_price)).

(** line 127: [rr_ratio = reward / risk if risk > 0 else 0] *)
Definition rr_ratio (risk reward : float) : float :=
  if (0 <? risk) then reward / risk else 0.

Definition format_exit_signal (now : string) (data : Payload.t) : string :=
  let symbol := get (Payload.symbol data) "UNKNOWN" in
  let direction := get (Payload.direction data) "LONG" in
  let entry_price := get (Payload.entry_price data) 0 in
  let tp_price := get (Payload.tp_price data) 0 in
  let sl_price := get (Payload.sl_price data) 0 in
  let momentum := get (Payload.momentum data) 0 in
  let timestamp := get (Payload.timestamp data) now in
  let '(risk, reward) := risk_reward direction entry_price tp_price sl_price in
  let rr_ratio := rr_ratio risk reward in
  let direction_emoji :=
    if String.eqb (upper direction) "LONG" then "🟢" else "🔴" in
  let message :=
    LF +:+
    direction_emoji +:+ " ПАРАМЕТРЫ ПОЗИЦИИ" +:+ LF +:+
    LF +:+
    "<b>Символ:</b> " +:+ symbol +:+ LF +:+
    "<b>Направление:</b> " +:+ upper direction +:+ LF +:+
    "<b>Статус:</b> Набор позиции завершён" +:+ LF +:+
    LF +:+
    "🎯 <b>Take Profit:</b> $" +:+ format_f 6 tp_price +:+ " (VWAP)" +:+ LF +:+
    "🛡 <b>Stop Loss:</b> $" +:+ format_f 6 sl_price +:+ " (ATR)" +:+ LF +:+
    LF +:+
    "📊 <b>Анализ:</b>" +:+ LF +:+
    "• Momentum: " +:+ format_f 2 momentum +:+ " (вышел из зоны)" +:+ LF +:+
    "• Risk/Reward: 1:" +:+ format_f 2 rr_ratio +:+ LF +:+
    "• Плечо: 5x" +:+ LF +:+
    LF +:+
    "⏰ <b>Время:</b> " +:+ timestamp +:+ LF in
  strip message.

Definition format_update_signal (now : string) (data : Payload.t) : string :=
  let symbol := get (Payload.symbol data) "UNKNOWN" in
  let update_type := get (Payload.update_type data) "info" in
  let message_text := get (Payload.message data) "" in
  let price := get (Payload.price data) 0 in
  let timestamp := get (Payload.timestamp data) now in
  let emoji :=
    if String.eqb update_type "warning" then "⚠️"
    else if String.eqb update_type "success" then "✅"
    else if String.eqb update_type "error" then "❌"
    else "ℹ️" in
  let message :=
    LF +:+
    emoji +:+ " ОБНОВЛЕНИЕ ПОЗИЦИИ" +:+ LF +:+
    LF +:+
    "<b>Символ:</b> " +:+ symbol +:+ LF +:+
    "<b>Цена:</b> $" +:+ format_f 6 price +:+ LF +:+
    LF +:+
    message_text +:+ LF +:+
    LF +:+
    "⏰ <b>Время:</b> " +:+ timestamp +:+ LF in
  strip message.

(** ** The process state and its effects *)

(** What leaves the handler, in the order in which it happens. *)
Inductive Event : Type :=
  | Sent (text : string)
      (** [await send_telegram_message(text)] *)
  | Stored (symbol : string) (state : PositionState.t)
      (** an assignment into [position_states[symbol]], with the value
          the entry holds after it *)
  | Warned (text : string).
      (** [logger.warning(text)] *)

Record World : Type := mkWorld {
  position_states : gmap string PositionState.t;
  trace : list Event
}.

Definition M (A : Type) : Type := World → A * World.

#[global] Instance M_ret : MRet M := λ A a w, (a, w).
#[global] Instance M_bind : MBind M :=
  λ A B k m w, let '(a, w') := m w in k a w'.

Definition emit (e : Event) : M unit :=
  λ w, (tt, mkWorld (position_states w) (trace w ++ [e])).

(** [await send_telegram_message(message)] (lines 60 to 76): the call
    catches the delivery error itself, and the handler drops its result. *)
Definition send_telegram_message (message : string) : M unit :=
  emit (Sent message).

Definition logger_warning (text : string) : M unit :=
  emit (Warned text).

(** [position_states.get(symbol)]: the test [symbol in position_states]
    together with the read [position_states[symbol]] that it guards *)
Definition states_get (symbol : string) : M (option PositionState.t) :=
  λ w, (position_states w !! symbol, w).

(** [position_states[symbol] = state] *)
Definition states_setitem (symbol : string) (state : PositionState.t) : M unit :=
  λ w, (tt, mkWorld (<[symbol := state]> (position_states w))
                    (trace w ++ [Stored symbol state])).

(** [position_states[symbol][key] = v], written as the update [f] of the
    record; the code runs it only under [symbol in position_states] *)
Definition states_update (symbol : string)
    (f : PositionState.t → PositionState.t) : M unit :=
  λ w, match position_states w !! symbol with
       | Some state =>
           (tt, mkWorld (<[symbol := f state]> (position_states w))
                        (trace w ++ [Stored symbol (f state)]))
       | None => (tt, w)
       end.

(** ** The handler (lines 232 to 277) *)

Record Response : Type := mkResponse {
  status_code : Z;
  content_status : string;
  content_message : string
}.

(** lines 238 to 248 *)
Definition entry_branch (now : nat → string) (signal_type symbol : string)
    (payload : Payload.t) : M unit :=
  let message := format_entry_signal (now 0%nat) payload in
  send_telegram_message message;;
  states_setitem symbol
    (PositionState.mk
       (Some "accumulating")
       (Some (now 1%nat))
       (Some (get (Payload.price payload) 0))
       (Some (if contains "long" (lower signal_type) then "LONG" else "SHORT"))
       None None).

(** lines 253 to 255: the stored state merged into the payload *)
Definition merge_state (state : option PositionState.t) (payload : Payload.t)
    : Payload.t :=
  match state with
  | Some st =>
      let payload :=
        Payload.set_direction (get (PositionState.direction st) "LONG") payload in
      Payload.set_entry_price (get (PositionState.entry_price st) 0) payload
  | None => payload
  end.

(** lines 251 to 264 *)
Definition exit_branch (now : nat → string) (symbol : string)
    (payload : Payload.t) : M unit :=
  state ← states_get symbol;
  let payload := merge_state state payload in
  let message := format_exit_signal (now 0%nat) payload in
  send_telegram_message message;;
  state ← states_get symbol;
  match state with
  | Some _ =>
      states_update symbol (PositionState.set_status "active");;
      states_update symbol
        (PositionState.set_tp_price (get (Payload.tp_price payload) 0));;
      states_update symbol
        (PositionState.set_sl_price (get (Payload.sl_price payload) 0))
  | None => mret tt
  end.

(** lines 267 to 269 *)
Definition update_branch (now : nat → string) (payload : Payload.t) : M unit :=
  let message := format_update_signal (now 0%nat) payload in
  send_telegram_message message.

(** line 272 *)
Definition unknown_branch (signal_type : string) : M unit :=
  logger_warning ("Unknown signal type: " +:+ signal_type).

(** The body of [webhook_handler] once the request is authorised and its
    JSON parsed; [now k] is the k-th reading of the clock. *)
Definition webhook_handler (now : nat → string) (payload : Payload.t)
    : M Response :=
  let signal_type := get (Payload.signal_type payload) "" in
  let symbol := get (Payload.symbol payload) "" in
  (if contains "entry" (lower signal_type) then
     entry_branch now signal_type symbol payload
   else if contains "exit" (lower signal_type) then
     exit_branch now symbol payload
   else if contains "update" (lower signal_type) then
     update_branch now payload
   else
     unknown_branch signal_type);;
  mret (mkResponse 200 "success" "Webhook processed").

(** One request against the store [states]: the response, the store
    afterwards and the effects in order. *)
Definition run {A : Type} (m : M A) (states : gmap string PositionState.t)
    : A * gmap string PositionState.t * list Event :=
  let '(a, w) := m (mkWorld states []) in
  (a, position_states w, trace w).

End Bot.

(** ** Vocabulary of the properties *)

Import Str Num Bot.

Definition response_of {A : Type}
    (r : A * gmap string PositionState.t * list Event) : A := r.1.1.

Definition store_of {A : Type}
    (r : A * gmap string PositionState.t * list Event)
    : gmap string PositionState.t := r.1.2.

Definition trace_of {A : Type}
    (r : A * gmap string PositionState.t * list Event) : list Event := r.2.

(** line 274: the response of a processed webhook *)
Definition ok_response : Response := mkResponse 200 "success" "Webhook processed".

(** the dictionary that the entry branch stores (lines 243 to 248) *)
Definition entry_state (now : nat → string) (payload : Payload.t) : PositionState.t :=
  PositionState.mk (Some "accumulating") (Some (now 1%nat))
    (Some (get (Payload.price payload) 0%float))
    (Some (if contains "long" (lower (get (Payload.signal_type payload) ""))
           then "LONG" else "SHORT"))
    None None.

(** the stored dictionary after the three assignments of lines 262 to 264 *)
Definition exit_state (payload : Payload.t) (st : PositionState.t) : PositionState.t :=
  PositionState.set_sl_price (get (Payload.sl_price payload) 0%float)
    (PositionState.set_tp_price (get (Payload.tp_price payload) 0%float)
       (PositionState.set_status "active" st)).

(** [payload] with its keys [direction] and [entry_price] replaced by
    arbitrary ones, present or not *)
Definition with_entry_fields (d : option string) (e : option float)
    (p : Payload.t) : Payload.t :=
  Payload.mk (Payload.signal_type p) (Payload.symbol p) (Payload.timeframe p)
    (Payload.price p) (Payload.momentum p) (Payload.vwap p)
    (Payload.tp_price p) (Payload.sl_price p) d e (Payload.update_type p)
    (Payload.message p) (Payload.timestamp p).

(** The classification as the specification words it: the first of the
    substrings "entry", "exit", "update" found in the lower-cased
    [signal_type] decides. *)
Inductive SignalClass : Type := Entry | Exit | Update | Unrecognized.

Definition spec_classify (signal_type : string) : SignalClass :=
  let t := lower signal_type in
  if contains "entry" t then Entry
  else if contains "exit" t then Exit
  else if contains "update" t then Update
  else Unrecognized.

Definition is_stored (e : Event) : bool :=
  match e with
  | Stored _ _ => true
  | _ => false
  end.

(** A stored state that has the two keys the exit branch reads. *)
Definition complete (st : PositionState.t) : Prop :=
  is_Some (PositionState.direction st) ∧ is_Some (PositionState.entry_price st).

(** The writes that a trace records, replayed on a store. *)
Definition apply_writes (σ : gmap string PositionState.t) (tr : list Event)
    : gmap string PositionState.t :=
  foldl (λ m e, match e with
                | Stored symbol state => <[symbol := state]> m
                | _ => m
                end) σ tr.

(** In a trace, every hand-off to the sink comes before every write of
    the store; and the converse order. *)
Definition sends_before_stores (tr : list Event) : Prop :=
  ∀ i j text symbol state,
    tr !! i = Some (Sent text) → tr !! j = Some (Stored symbol state) → (i < j)%nat.

Definition stores_before_sends (tr : list Event) : Prop :=
  ∀ i j text symbol state,
    tr !! i = Some (Sent text) → tr !! j = Some (Stored symbol state) → (j < i)%nat.

(** The payloads of [src/test_webhook.py], at a fixed time stamp, and a
    few more. *)
Definition clock0 : nat → string := λ _, "2024-01-01T00:00:00".

Definition sample_entry_long : Payload.t :=
  Payload.mk (Some "entry_long") (Some "BTCUSDT") (Some "7m")
    (Some 45000.50%float) (Some (-5.3)%float) (Some 45100.00%float)
    None None None None None None (Some "2024-01-01T00:00:00").

Definition sample_exit_long : Payload.t :=
  Payload.mk (Some "exit_long") (Some "BTCUSDT") (Some "7m")
    (Some 45050.00%float) (Some (-4.8)%float) None
    (Some 45100.00%float) (Some 44000.00%float) None None None None
    (Some "2024-01-01T00:05:00").

Definition sample_entry_short : Payload.t :=
  Payload.mk (Some "entry_short") (Some "ETHUSDT") (Some "7m")
    (Some 2500.00%float) (Some 5.4%float) (Some 2490.00%float)
    None None None None None None (Some "2024-01-01T00:00:00").

(** an exit payload that carries a direction and an entry price of its own *)
Definition sample_exit_own_fields : Payload.t :=
  with_entry_fields (Some "SHORT") (Some 1%float) sample_exit_long.

Definition sample_entry_exit : Payload.t :=
  Payload.mk (Some "Entry_Exit_Long") (Some "BTCUSDT") None
    (Some 45000%float) None None None None None None None None None.

Definition sample_update : Payload.t :=
  Payload.mk (Some "position_update") (Some "BTCUSDT") None
    (Some 45010%float) None None None None None None
    (Some "warning") (Some "trailing stop moved") None.

Definition sample_ping : Payload.t :=
  Payload.mk (Some "ping") (Some "BTCUSDT") None None None None None None
    None None None None None.

(** the example of the risk/reward ratio: entry 45000, stop 44000, target 46000 *)
Definition sample_ratio : Payload.t :=
  Payload.mk (Some "exit_long") (Some "BTCUSDT") None None None None
    (Some 46000%float) (Some 44000%float) (Some "LONG") (Some 45000%float)
    None None None.

(** the store after the entry of [sample_entry_long] into an empty one *)
Definition store_after_entry : gmap string PositionState.t :=
  {[ "BTCUSDT" := entry_state clock0 sample_entry_long ]}.

(** ** The whole service (lines 38 to 300)

    The handler above abstracts the sink to the event [Sent]. Here the
    module is modelled with its other global, [telegram_bot], with the
    client call that may fail, with the exceptions that the handlers raise
    and catch, and with the log. What the libraries do is a parameter:
    whether [Bot(token=...)] raises, how a call of [send_message] ends,
    and the texts [str(e)] and [repr(payload)]. *)

Module Service.

(** The environment variables read at lines 33 to 35, and the library
    functions whose result is a text or an exception. *)
Record Env : Type := mkEnv {
  TELEGRAM_BOT_TOKEN : string;
  TELEGRAM_CHANNEL_ID : string;
  WEBHOOK_SECRET : string;
  (** [Bot(token=t)]: [None] when it returns, [Some text] when it raises
      an exception [e] with [str(e) = text] *)
  Bot_raises : string → option string;
  (** [str(HTTPException(status_code, detail))] *)
  str_HTTPException : Z → string → string;
  (** the payload as [logger.info(f"... {payload}")] prints it *)
  repr_payload : Payload.t → string
}.

(** The exceptions of the module, all subclasses of [Exception]: the
    [HTTPException] of FastAPI, and any other one, known by its text. *)
Inductive Exn : Type :=
  | HTTPException (status_code : Z) (detail : string)
  | Error (text : string).

(** [str(e)] *)
Definition str (env : Env) (e : Exn) : string :=
  match e with
  | HTTPException status_code detail => str_HTTPException env status_code detail
  | Error text => text
  end.

(** How a call [await telegram_bot.send_message(...)] ends. *)
Inductive Ending : Type :=
  | Returns
  | RaisesTelegramError (text : string)
  | RaisesOther (text : string).

(** A [telegram.Bot], known by the token it was built with. *)
Record Client : Type := mkClient { token : string }.

Inductive Effect : Type :=
  | Logged (level text : string)
  | Called (chat_id text parse_mode : string) (ending : Ending)
      (** [telegram_bot.send_message(chat_id=, text=, parse_mode=)] *)
  | Assigned (symbol : string) (state : PositionState.t).
      (** an assignment into [position_states[symbol]] *)

(** The two globals of lines 38 and 41, and what the process did. *)
Record App : Type := mkApp {
  telegram_bot : option Client;
  position_states : gmap string PositionState.t;
  effects : list Effect
}.

(** the module as imported *)
Definition initial : App := mkApp None ∅ [].

(** A computation that may raise; the state it reached is kept. *)
Definition S (A : Type) : Type := App → (Exn + A) * App.

#[global] Instance S_ret : MRet S := λ A a app, (inr a, app).
#[global] Instance S_bind : MBind S :=
  λ A B k m app,
    match m app with
    | (inr a, app') => k a app'
    | (inl e, app') => (inl e, app')
    end.

Definition raise {A : Type} (e : Exn) : S A := λ app, (inl e, app).

(** [try: m  except Exception as e: handler(e)] *)
Definition try_except {A : Type} (m : S A) (handler : Exn → S A) : S A :=
  λ app,
    match m app with
    | (inl e, app') => handler e app'
    | r => r
    end.

Definition emit (e : Effect) : S unit :=
  λ app, (inr tt, mkApp (telegram_bot app) (position_states app)
                        (effects app ++ [e])).

Definition logger_info (text : string) : S unit := emit (Logged "INFO" text).
Definition logger_warning (text : string) : S unit := emit (Logged "WARNING" text).
Definition logger_error (text : string) : S unit := emit (Logged "ERROR" text).

Definition get_telegram_bot : S (option Client) :=
  λ app, (inr (telegram_bot app), app).

Definition set_telegram_bot (bot : Client) : S unit :=
  λ app, (inr tt, mkApp (Some bot) (position_states app) (effects app)).

Definition states_get (symbol : string) : S (option PositionState.t) :=
  λ app, (inr (position_states app !! symbol), app).

Definition states_setitem (symbol : string) (state : PositionState.t) : S unit :=
  λ app, (inr tt, mkApp (telegram_bot app)
                        (<[symbol := state]> (position_states app))
                        (effects app ++ [Assigned symbol state])).

Definition states_update (symbol : string)
    (f : PositionState.t → PositionState.t) : S unit :=
  λ app,
    match position_states app !! symbol with
    | Some state =>
        (inr tt, mkApp (telegram_bot app)
                       (<[symbol := f state]> (position_states app))
                       (effects app ++ [Assigned symbol (f state)]))
    | None => (inr tt, app)
    end.

(** lines 44 to 57 *)
Definition init_telegram_bot (env : Env) : S bool :=
  if String.eqb (TELEGRAM_BOT_TOKEN env) "" then
    logger_error "TELEGRAM_BOT_TOKEN not set!";;
    mret false
  else
    match Bot_raises env (TELEGRAM_BOT_TOKEN env) with
    | None =>
        set_telegram_bot (mkClient (TELEGRAM_BOT_TOKEN env));;
        logger_info "Telegram bot initialized successfully";;
        mret true
    | Some text =>
        logger_error ("Failed to initialize Telegram bot: " +:+ text);;
        mret false
    end.

(** lines 60 to 76, with [parse_mode] at its default; [ending] is how the
    client call ends if it is made *)
Definition send_telegram_message (env : Env) (ending : Ending)
    (message : string) : S bool :=
  bot ← get_telegram_bot;
  match bot with
  | None =>
      logger_error "Telegram bot not initialized";;
      mret false
  | Some _ =>
      emit (Called (TELEGRAM_CHANNEL_ID env) message "HTML" ending);;
      match ending with
      | Returns =>
          logger_info ("Message sent to Telegram channel "
                         +:+ TELEGRAM_CHANNEL_ID env);;
          mret true
      | RaisesTelegramError text =>
          logger_error ("Failed to send Telegram message: " +:+ text);;
          mret false
      | RaisesOther text => raise (Error text)
      end
  end.

(** lines 180 to 194 *)
Definition startup_event (env : Env) (ending : Ending) : S unit :=
  logger_info "Starting TradingView Telegram Bot...";;
  ok ← init_telegram_bot env;
  if (ok : bool) then
    logger_info "Bot initialized successfully";;
    try_except
      (send_telegram_message env ending
         ("🤖 <b>Бот запущен</b>" +:+ LF +:+ LF +:+
          "Мониторинг сигналов TradingView активирован.");;
       mret tt)
      (λ e, logger_error ("Failed to send startup message: " +:+ str env e))
  else
    logger_error "Failed to initialize bot".

(** lines 197 to 204 *)
Definition root : list (string * string) :=
  [("status", "running"); ("service", "TradingView Telegram Bot");
   ("version", "1.0.0")].

(** lines 207 to 215 *)
Record Health : Type := mkHealth {
  health_status : string;
  health_telegram_bot : string;
  active_positions : nat
}.

Definition health_check : S Health :=
  λ app,
    let bot_status :=
      match telegram_bot app with Some _ => "ok" | None => "error" end in
    (inr (mkHealth "healthy" bot_status (size (position_states app))), app).

(** A request to [/webhook]: its Authorization header, if any, and what
    [await request.json()] gives: the payload, or an exception. *)
Record Request : Type := mkRequest {
  authorization : option string;
  json : string + Payload.t
}.

(** lines 218 to 281 *)
Definition webhook_handler (env : Env) (ending : Ending) (now : nat → string)
    (request : Request) : S Response :=
  try_except
    (let auth_header := get (authorization request) "" in
     (if negb (String.eqb auth_header ("Bearer " +:+ WEBHOOK_SECRET env)) then
        logger_warning "Unauthorized webhook attempt";;
        raise (HTTPException 401 "Unauthorized")
      else mret tt);;
     payload ← match json request with
               | inr payload => mret payload
               | inl text => raise (Error text)
               end;
     logger_info ("Received webhook: " +:+ repr_payload env payload);;
     let signal_type := get (Payload.signal_type payload) "" in
     let symbol := get (Payload.symbol payload) "" in
     (if contains "entry" (lower signal_type) then
        let message := format_entry_signal (now 0%nat) payload in
        send_telegram_message env ending message;;
        states_setitem symbol
          (PositionState.mk
             (Some "accumulating")
             (Some (now 1%nat))
             (Some (get (Payload.price payload) 0%float))
             (Some (if contains "long" (lower signal_type)
                    then "LONG" else "SHORT"))
             None None)
      else if contains "exit" (lower signal_type) then
        state ← states_get symbol;
        let payload := merge_state state payload in
        let message := format_exit_signal (now 0%nat) payload in
        send_telegram_message env ending message;;
        state ← states_get symbol;
        match state with
        | Some _ =>
            states_update symbol (PositionState.set_status "active");;
            states_update symbol
              (PositionState.set_tp_price
                 (get (Payload.tp_price payload) 0%float));;
            states_update symbol
              (PositionState.set_sl_price
                 (get (Payload.sl_price payload) 0%float))
        | None => mret tt
        end
      else if contains "update" (lower signal_type) then
        let message := format_update_signal (now 0%nat) payload in
        send_telegram_message env ending message;;
        mret tt
      else
        logger_warning ("Unknown signal type: " +:+ signal_type));;
     mret (mkResponse 200 "success" "Webhook processed"))
    (λ e,
       logger_error ("Error processing webhook: " +:+ str env e);;
       raise (HTTPException 500 (str env e))).

(** lines 284 to 300; the message is not stripped *)
Definition test_notification (env : Env) (ending : Ending) (now : string)
    : S (list (string * string)) :=
  let test_message :=
    LF +:+
    "🧪 <b>ТЕСТОВОЕ УВЕДОМЛЕНИЕ</b>" +:+ LF +:+
    LF +:+
    "Бот работает корректно и готов принимать сигналы от TradingView." +:+ LF +:+
    LF +:+
    "⏰ " +:+ now +:+ LF in
  success ← send_telegram_message env ending test_message;
  if (success : bool) then
    mret [("status", "success"); ("message", "Test notification sent")]
  else
    raise (HTTPException 500 "Failed to send test notification").

Definition is_call (e : Effect) : bool :=
  match e with
  | Called _ _ _ _ => true
  | _ => false
  end.

(** the client calls among the effects, in order *)
Definition calls (effects : list Effect) : list Effect :=
  List.filter is_call effects.

End Service.

(** ** Vocabulary of the further properties *)

(** A sequence of requests served one after the other, each with its own
    clock: the store that the last one leaves. *)
Definition serve (requests : list ((nat → string) * Payload.t))
    (σ : gmap string PositionState.t) : gmap string PositionState.t :=
  foldl (λ m r, store_of (run (webhook_handler r.1 r.2) m)) σ requests.

(** The two shapes of a stored dictionary: as the entry branch leaves it,
    and as the exit branch completes it. *)
Definition well_formed (st : PositionState.t) : Prop :=
  is_Some (PositionState.entry_time st) ∧
  is_Some (PositionState.entry_price st) ∧
  (PositionState.direction st = Some "LONG" ∨
   PositionState.direction st = Some "SHORT") ∧
  ((PositionState.status st = Some "accumulating" ∧
    PositionState.tp_price st = None ∧ PositionState.sl_price st = None) ∨
   (PositionState.status st = Some "active" ∧
    is_Some (PositionState.tp_price st) ∧ is_Some (PositionState.sl_price st))).

(** [payload] with its key [signal_type] replaced *)
Definition with_signal_type (t : option string) (p : Payload.t) : Payload.t :=
  Payload.mk t (Payload.symbol p) (Payload.timeframe p)
    (Payload.price p) (Payload.momentum p) (Payload.vwap p)
    (Payload.tp_price p) (Payload.sl_price p) (Payload.direction p)
    (Payload.entry_price p) (Payload.update_type p)
    (Payload.message p) (Payload.timestamp p).

(** line 159 to 165: the marker of an update *)
Definition update_emoji (update_type : string) : string :=
  if String.eqb update_type "warning" then "⚠️"
  else if String.eqb update_type "success" then "✅"
  else if String.eqb update_type "error" then "❌"
  else "ℹ️".

(** The texts handed to the sink and the writes, as a trace of the
    handler records them, and the writes among the effects of the service. *)
Definition handed_over (tr : list Event) : list string :=
  omap (λ e, match e with Sent text => Some text | _ => None end) tr.

Definition writes_of (tr : list Event) : list (string * PositionState.t) :=
  omap (λ e, match e with
             | Stored symbol state => Some (symbol, state)
             | _ => None
             end) tr.

Definition assignments (effects : list Service.Effect)
    : list (string * PositionState.t) :=
  omap (λ e, match e with
             | Service.Assigned symbol state => Some (symbol, state)
             | _ => None
             end) effects.

(** An environment for the examples: the default secret of line 35, a
    token that the client accepts, and library texts. *)
Definition sample_env : Service.Env :=
  Service.mkEnv "123456:ABC" "@signals" "your-secret-key"
    (λ _, None)
    (λ status_code detail, detail)
    (λ _, "{...}").

(** the same with no token set *)
Definition sample_env_no_token : Service.Env :=
  Service.mkEnv "" "@signals" "your-secret-key"
    (λ _, None)
    (λ status_code detail, detail)
    (λ _, "{...}").

Definition sample_request (payload : Payload.t) : Service.Request :=
  Service.mkRequest (Some "Bearer your-secret-key") (inr payload).

(** the service after a start-up in which the client was built *)
Definition sample_app : Service.App :=
  Service.mkApp (Some (Service.mkClient "123456:ABC")) store_after_entry [].

(** whether [init_telegram_bot] builds the client: the token is set and
    [Bot(token=...)] does not raise *)
Definition client_is_built (env : Service.Env) : bool :=
  negb (String.eqb (Service.TELEGRAM_BOT_TOKEN env) "") &&
  match Service.Bot_raises env (Service.TELEGRAM_BOT_TOKEN env) with
  | None => true
  | Some _ => false
  end.

(** the message of line 189 *)
Definition startup_message : string :=
  "🤖 <b>Бот запущен</b>" +:+ LF +:+ LF +:+
  "Мониторинг сигналов TradingView активирован.".

(** Requests to /webhook served one after the other, each with the
    ending of its client call and its clock: the state of the service
    after the last one. *)
Definition serve_webhooks (env : Service.Env)
    (requests : list (Service.Ending * (nat → string) * Service.Request))
    (app : Service.App) : Service.App :=
  foldl (λ a r, (Service.webhook_handler env r.1.1 r.1.2 r.2 a).2) app requests.


(** * Properties *)

(** ** The helpers, on examples *)

Example lower_entry : Str.lower "Entry_LONG" = "entry_long".
Proof. reflexivity. Qed.

Example contains_entry : Str.contains "entry" (Str.lower "my ENTRY long") = true.
Proof. reflexivity. Qed.

Example strip_ex : Str.strip (Str.LF +:+ " a b " +:+ Str.LF) = "a b".
Proof. reflexivity. Qed.

Example format_f_ex1 : Num.format_f 6 45000.5%float = "45000.500000".
Proof. vm_compute. reflexivity. Qed.

Example format_f_ex2 : Num.format_f 2 (-5.3)%float = "-5.30".
Proof. vm_compute. reflexivity. Qed.

Example format_f_ex3 : Num.format_f 2 0.125%float = "0.12".
Proof. vm_compute. reflexivity. Qed.

Example format_f_ex4 : Num.format_f 2 2.675%float = "2.67".
Proof. vm_compute. reflexivity. Qed.

Example format_f_ex5 : Num.format_f 2 (-0.001)%float = "-0.00".
Proof. vm_compute. reflexivity. Qed.

Example format_f_ex6 : Num.format_f 2 0.995%float = "0.99".
Proof. vm_compute. reflexivity. Qed.

Example format_f_ex7 : Num.format_f 2 1e22%float = "10000000000000000000000.00".
Proof. vm_compute. reflexivity. Qed.

(** ** The formatters on the payloads of the test script

    The expected texts are the templates of lines 91 to 105, 131 to 147
    and 167 to 176 with the fields filled in. *)

Example entry_message_of_test_payload :
  format_entry_signal "2024-01-01T00:00:00" sample_entry_long =
    "🟢 LONG ВХОД В ПОЗИЦИЮ" +:+
    LF +:+
    LF +:+
    "<b>Символ:</b> BTCUSDT" +:+
    LF +:+
    "<b>Таймфрейм:</b> 7m" +:+
    LF +:+
    "<b>Цена:</b> $45000.500000" +:+
    LF +:+
    LF +:+
    "📊 <b>Индикаторы:</b>" +:+
    LF +:+
    "• Momentum: -5.30 (ниже -5.1)" +:+
    LF +:+
    "• VWAP: $45100.000000" +:+
    LF +:+
    LF +:+
    "⏰ <b>Время:</b> 2024-01-01T00:00:00" +:+
    LF +:+
    LF +:+
    "<i>Начат набор позиции. Ожидайте уведомление с TP/SL...</i>".
Proof. vm_compute. reflexivity. Qed.

Example exit_message_after_test_entry :
  format_exit_signal "2024-01-01T00:00:00"
    (merge_state (Some (entry_state clock0 sample_entry_long)) sample_exit_long) =
    "🟢 ПАРАМЕТРЫ ПОЗИЦИИ" +:+
    LF +:+
    LF +:+
    "<b>Символ:</b> BTCUSDT" +:+
    LF +:+
    "<b>Направление:</b> LONG" +:+
    LF +:+
    "<b>Статус:</b> Набор позиции завершён" +:+
    LF +:+
    LF +:+
    "🎯 <b>Take Profit:</b> $45100.000000 (VWAP)" +:+
    LF +:+
    "🛡 <b>Stop Loss:</b> $44000.000000 (ATR)" +:+
    LF +:+
    LF +:+
    "📊 <b>Анализ:</b>" +:+
    LF +:+
    "• Momentum: -4.80 (вышел из зоны)" +:+
    LF +:+
    "• Risk/Reward: 1:0.10" +:+
    LF +:+
    "• Плечо: 5x" +:+
    LF +:+
    LF +:+
    "⏰ <b>Время:</b> 2024-01-01T00:05:00".
Proof. vm_compute. reflexivity. Qed.

Example update_message_example :
  format_update_signal "2024-01-01T00:00:00" sample_update =
    "⚠️ ОБНОВЛЕНИЕ ПОЗИЦИИ" +:+
    LF +:+
    LF +:+
    "<b>Символ:</b> BTCUSDT" +:+
    LF +:+
    "<b>Цена:</b> $45010.000000" +:+
    LF +:+
    LF +:+
    "trailing stop moved" +:+
    LF +:+
    LF +:+
    "⏰ <b>Время:</b> 2024-01-01T00:00:00".
Proof. vm_compute. reflexivity. Qed.

Example entry_then_exit :
  store_of (run (webhook_handler clock0 sample_exit_long)
              (store_of (run (webhook_handler clock0 sample_entry_long) ∅)))
    !! "BTCUSDT"
  = Some (PositionState.mk (Some "active") (Some "2024-01-01T00:00:00")
            (Some 45000.5%float) (Some "LONG")
            (Some 45100%float) (Some 44000%float)).
Proof. vm_compute. reflexivity. Qed.

(** ** Strings *)

Lemma append_nonempty_r (s t : string) : t ≠ "" → s +:+ t ≠ "".
Proof. destruct s; simpl; [tauto | discriminate]. Qed.

Lemma lstrip_LF (s : string) : lstrip (LF +:+ s) = lstrip s.
Proof. reflexivity. Qed.

Lemma lstrip_nonspace (c : ascii) (s : string) :
  is_space c = false → lstrip (String c s) = String c s.
Proof. intros H; simpl; now rewrite H. Qed.

Lemma rstrip_nonspace (c : ascii) (s : string) :
  is_space c = false → rstrip (String c s) ≠ "".
Proof. intros H; simpl; destruct (rstrip s); [now rewrite H | discriminate]. Qed.

Lemma rstrip_app (s t : string) :
  rstrip t ≠ "" → rstrip (s +:+ t) = s +:+ rstrip t.
Proof.
  intros Ht; induction s as [|c s IH]; simpl; [reflexivity|].
  rewrite IH. change (String c s +:+ rstrip t) with (String c (s +:+ rstrip t)).
  destruct (s +:+ rstrip t) eqn:E; [|reflexivity].
  exfalso; revert E; now apply append_nonempty_r.
Qed.

Lemma rstrip_app_nonempty (s t : string) : rstrip t ≠ "" → rstrip (s +:+ t) ≠ "".
Proof. intros Ht; rewrite rstrip_app by exact Ht; now apply append_nonempty_r. Qed.

(** ** Floats *)

Lemma SFcompare_finite_eq s1 m1 e1 s2 m2 e2 :
  SFeqb (S754_finite s1 m1 e1) (S754_finite s2 m2 e2) = true →
  s1 = s2 ∧ m1 = m2 ∧ e1 = e2.
Proof.
  unfold SFeqb, SFcompare.
  destruct s1, s2; try discriminate;
    destruct (Z.compare_spec e1 e2) as [He|He|He]; try discriminate;
    change (Pos.compare_cont Eq m1 m2) with (Pos.compare m1 m2);
    destruct (Pos.compare_spec m1 m2) as [Hm|Hm|Hm]; try discriminate;
    intros _; subst; repeat split.
Qed.

Lemma SFsub_self s m e :
  SFsub prec emax (S754_finite s m e) (S754_finite s m e) = S754_zero false.
Proof.
  unfold SFsub. rewrite Z.min_id. unfold shl_align. rewrite Z.sub_diag.
  simpl fst. rewrite ?Z.sub_diag. reflexivity.
Qed.

(** Python's [x == y] on floats leaves no risk: neither [abs(x - y) > 0]
    nor [abs(y - x) > 0] holds. *)
Lemma no_risk_when_equal (x y : float) :
  (x =? y)%float = true →
  (0 <? abs (x - y))%float = false ∧ (0 <? abs (y - x))%float = false.
Proof.
  rewrite FloatAxioms.eqb_spec, !ltb_spec, !abs_spec, !sub_spec.
  change (Prim2SF 0) with (S754_zero false). unfold SF64sub.
  destruct (Prim2SF x) as [sx|sx| |sx mx ex], (Prim2SF y) as [sy|sy| |sy my ey];
    try (destruct sx); try (destruct sy); try discriminate;
    try (intros _; split; reflexivity).
  all: intros H; apply SFcompare_finite_eq in H as (_ & -> & ->);
    rewrite SFsub_self; split; reflexivity.
Qed.

(** ** The shape of the messages *)

Lemma append_assoc (a b c : string) : (a +:+ b) +:+ c = a +:+ b +:+ c.
Proof.
  induction a as [|x a IH]; [reflexivity |].
  change (String x ((a +:+ b) +:+ c) = String x (a +:+ b +:+ c)).
  now rewrite IH.
Qed.

Lemma lstrip_literal (c : ascii) (s t : string) :
  is_space c = false → lstrip (String c s +:+ t) = String c s +:+ t.
Proof. intros H; simpl; now rewrite H. Qed.

Lemma rstrip_literal (c : ascii) (s t : string) :
  is_space c = false → rstrip (String c s +:+ t) ≠ "".
Proof. intros H; now apply (rstrip_nonspace c (s +:+ t)). Qed.

Lemma segment_skip (F : string → string) (a s : string) :
  (∃ pre post, s = pre +:+ F post) → ∃ pre post, a +:+ s = pre +:+ F post.
Proof.
  intros (pre & post & ->). exists (a +:+ pre), post. now rewrite append_assoc.
Qed.

Lemma segment_here (F : string → string) (post : string) :
  ∃ pre post', F post = pre +:+ F post'.
Proof. now exists "", post. Qed.

(** [rstrip t ≠ ""] for a text [t] in which a literal piece that starts
    with a visible character follows. *)
Ltac visible :=
  first [ apply rstrip_literal; reflexivity
        | apply rstrip_app_nonempty; visible ].

Ltac push_rstrip := repeat (rewrite rstrip_app by visible).

Ltac find_segment F :=
  first [ apply (segment_here F) | apply (segment_skip F); find_segment F ].

(** The entry message is the template without its first and last line
    feed; its momentum line carries the qualifier. *)
Lemma entry_momentum_line now data :
  ∃ pre post,
    format_entry_signal now data =
      pre +:+ "• Momentum: " +:+ format_f 2 (get (Payload.momentum data) 0%float)
          +:+ " " +:+ momentum_qualifier (get (Payload.momentum data) 0%float)
          +:+ LF +:+ "• VWAP: $" +:+ post.
Proof.
  unfold format_entry_signal, strip. rewrite lstrip_LF.
  destruct (contains "long" _);
    (rewrite lstrip_literal by reflexivity); push_rstrip;
    find_segment (fun post =>
      "• Momentum: " +:+ format_f 2 (get (Payload.momentum data) 0%float)
        +:+ " " +:+ momentum_qualifier (get (Payload.momentum data) 0%float)
        +:+ LF +:+ "• VWAP: $" +:+ post).
Qed.

(** The exit message shows the direction in upper case and the ratio
    computed by [risk_reward] and [rr_ratio] from the fields of [data]. *)
Lemma exit_direction_line now data :
  ∃ pre post,
    format_exit_signal now data =
      pre +:+ "<b>Направление:</b> "
          +:+ upper (get (Payload.direction data) "LONG") +:+ LF +:+ post.
Proof.
  unfold format_exit_signal, strip. destruct (risk_reward _ _ _ _) as [risk reward].
  rewrite lstrip_LF.
  destruct (String.eqb _ "LONG");
    (rewrite lstrip_literal by reflexivity); push_rstrip;
    find_segment (fun post =>
      "<b>Направление:</b> "
        +:+ upper (get (Payload.direction data) "LONG") +:+ LF +:+ post).
Qed.

Lemma exit_ratio_line now data :
  let rr := risk_reward (get (Payload.direction data) "LONG")
              (get (Payload.entry_price data) 0%float)
              (get (Payload.tp_price data) 0%float)
              (get (Payload.sl_price data) 0%float) in
  ∃ pre post,
    format_exit_signal now data =
      pre +:+ "• Risk/Reward: 1:" +:+ format_f 2 (rr_ratio (fst rr) (snd rr))
          +:+ LF +:+ "• Плечо: 5x" +:+ post.
Proof.
  unfold format_exit_signal, strip. destruct (risk_reward _ _ _ _) as [risk reward].
  cbv zeta. rewrite lstrip_LF.
  destruct (String.eqb _ "LONG");
    (rewrite lstrip_literal by reflexivity); push_rstrip;
    find_segment (fun post =>
      "• Risk/Reward: 1:" +:+ format_f 2 (rr_ratio (fst (risk, reward)) (snd (risk, reward)))
        +:+ LF +:+ "• Плечо: 5x" +:+ post).
Qed.

(** ** The four branches, run *)

Lemma run_entry now payload σ :
  contains "entry" (lower (get (Payload.signal_type payload) "")) = true →
  run (webhook_handler now payload) σ =
    (ok_response,
     <[get (Payload.symbol payload) "" := entry_state now payload]> σ,
     [Sent (format_entry_signal (now 0%nat) payload);
      Stored (get (Payload.symbol payload) "") (entry_state now payload)]).
Proof.
  intros H. unfold run, webhook_handler. rewrite H. reflexivity.
Qed.

Lemma run_exit_stored now payload (σ : gmap string PositionState.t) st :
  contains "entry" (lower (get (Payload.signal_type payload) "")) = false →
  contains "exit" (lower (get (Payload.signal_type payload) "")) = true →
  σ !! get (Payload.symbol payload) "" = Some st →
  run (webhook_handler now payload) σ =
    (ok_response,
     <[get (Payload.symbol payload) "" := exit_state payload st]> σ,
     [Sent (format_exit_signal (now 0%nat) (merge_state (Some st) payload));
      Stored (get (Payload.symbol payload) "") (PositionState.set_status "active" st);
      Stored (get (Payload.symbol payload) "")
        (PositionState.set_tp_price (get (Payload.tp_price payload) 0%float)
           (PositionState.set_status "active" st));
      Stored (get (Payload.symbol payload) "") (exit_state payload st)]).
Proof.
  intros Hentry Hexit Hst.
  unfold run, webhook_handler. rewrite Hentry, Hexit.
  unfold exit_branch, mbind, M_bind, states_get, send_telegram_message, emit,
    states_update, mret, M_ret; cbn [position_states trace].
  repeat (progress (rewrite ?Hst, ?lookup_insert_eq; cbn [position_states trace])).
  rewrite !insert_insert_eq. reflexivity.
Qed.

Lemma run_exit_absent now payload (σ : gmap string PositionState.t) :
  contains "entry" (lower (get (Payload.signal_type payload) "")) = false →
  contains "exit" (lower (get (Payload.signal_type payload) "")) = true →
  σ !! get (Payload.symbol payload) "" = None →
  run (webhook_handler now payload) σ =
    (ok_response, σ, [Sent (format_exit_signal (now 0%nat) payload)]).
Proof.
  intros Hentry Hexit Hst.
  unfold run, webhook_handler. rewrite Hentry, Hexit.
  unfold exit_branch, mbind, M_bind, states_get, send_telegram_message, emit,
    mret, M_ret; cbn [position_states trace].
  repeat (progress (rewrite ?Hst; cbn [position_states trace])).
  reflexivity.
Qed.

Lemma run_update now payload (σ : gmap string PositionState.t) :
  contains "entry" (lower (get (Payload.signal_type payload) "")) = false →
  contains "exit" (lower (get (Payload.signal_type payload) "")) = false →
  contains "update" (lower (get (Payload.signal_type payload) "")) = true →
  run (webhook_handler now payload) σ =
    (ok_response, σ, [Sent (format_update_signal (now 0%nat) payload)]).
Proof.
  intros Hentry Hexit Hupdate.
  unfold run, webhook_handler. rewrite Hentry, Hexit, Hupdate. reflexivity.
Qed.

Lemma run_unknown now payload (σ : gmap string PositionState.t) :
  contains "entry" (lower (get (Payload.signal_type payload) "")) = false →
  contains "exit" (lower (get (Payload.signal_type payload) "")) = false →
  contains "update" (lower (get (Payload.signal_type payload) "")) = false →
  run (webhook_handler now payload) σ =
    (ok_response, σ,
     [Warned ("Unknown signal type: " +:+ get (Payload.signal_type payload) "")]).
Proof.
  intros Hentry Hexit Hupdate.
  unfold run, webhook_handler. rewrite Hentry, Hexit, Hupdate. reflexivity.
Qed.

(** The handler follows the classification of the specification. *)
Lemma webhook_handler_classifies now payload :
  webhook_handler now payload =
    ((match spec_classify (get (Payload.signal_type payload) "") with
     | Entry =>
         entry_branch now (get (Payload.signal_type payload) "")
           (get (Payload.symbol payload) "") payload
     | Exit => exit_branch now (get (Payload.symbol payload) "") payload
     | Update => update_branch now payload
     | Unrecognized => unknown_branch (get (Payload.signal_type payload) "")
     end);;
     mret ok_response).
Proof.
  unfold webhook_handler, spec_classify.
  destruct (contains "entry" _); [reflexivity|].
  destruct (contains "exit" _); [reflexivity|].
  destruct (contains "update" _); reflexivity.
Qed.

(** ** Entry signals *)

(** C2. For every signal whose signal_type contains "entry" in any case,
    the store after dispatch is the store before with the entry of the
    signal's symbol replaced by a fresh state: status accumulating,
    entry_price the payload's price (0 when absent), direction LONG when
    the signal_type contains "long" in any case and SHORT otherwise, no
    tp_price and no sl_price; whatever was stored for the symbol is gone. *)
Theorem entry_writes_fresh_state now payload (σ : gmap string PositionState.t) :
  contains "entry" (lower (get (Payload.signal_type payload) "")) = true →
  let symbol := get (Payload.symbol payload) "" in
  let fresh :=
    PositionState.mk (Some "accumulating") (Some (now 1%nat))
      (Some (get (Payload.price payload) 0%float))
      (Some (if contains "long" (lower (get (Payload.signal_type payload) ""))
             then "LONG" else "SHORT"))
      None None in
  store_of (run (webhook_handler now payload) σ) = <[symbol := fresh]> σ ∧
  store_of (run (webhook_handler now payload) σ) !! symbol = Some fresh.
Proof.
  intros Hentry symbol fresh.
  rewrite (run_entry now payload σ Hentry). unfold store_of; cbn [fst snd].
  split; [reflexivity|]. apply lookup_insert_eq.
Qed.

Lemma entry_writes_fresh_state_witness :
  store_of (run (webhook_handler clock0 sample_entry_short) store_after_entry)
    !! "ETHUSDT"
  = Some (PositionState.mk (Some "accumulating") (Some "2024-01-01T00:00:00")
            (Some 2500%float) (Some "SHORT") None None)
  ∧
  store_of (run (webhook_handler clock0 sample_entry_exit) store_after_entry)
    !! "BTCUSDT"
  = Some (PositionState.mk (Some "accumulating") (Some "2024-01-01T00:00:00")
            (Some 45000%float) (Some "LONG") None None).
Proof.
  split.
  - exact (proj2 (entry_writes_fresh_state clock0 sample_entry_short
                    store_after_entry eq_refl)).
  - exact (proj2 (entry_writes_fresh_state clock0 sample_entry_exit
                    store_after_entry eq_refl)).
Defined.

(** C3. The substrings are tried in the order "entry", "exit", "update"
    and the first found decides: a signal whose signal_type contains both
    "entry" and "exit" in any case is classified as an entry and is
    processed by the entry branch, which sends the entry message and
    stores an accumulating state. *)
Theorem entry_wins_over_exit now payload (σ : gmap string PositionState.t) :
  contains "entry" (lower (get (Payload.signal_type payload) "")) = true →
  contains "exit" (lower (get (Payload.signal_type payload) "")) = true →
  spec_classify (get (Payload.signal_type payload) "") = Entry ∧
  run (webhook_handler now payload) σ =
    run (entry_branch now (get (Payload.signal_type payload) "")
           (get (Payload.symbol payload) "") payload;;
         mret ok_response) σ ∧
  run (webhook_handler now payload) σ =
    (ok_response,
     <[get (Payload.symbol payload) "" := entry_state now payload]> σ,
     [Sent (format_entry_signal (now 0%nat) payload);
      Stored (get (Payload.symbol payload) "") (entry_state now payload)]).
Proof.
  intros Hentry Hexit.
  assert (Hclass : spec_classify (get (Payload.signal_type payload) "") = Entry)
    by (unfold spec_classify; now rewrite Hentry).
  split; [exact Hclass|]. split.
  - rewrite webhook_handler_classifies, Hclass. reflexivity.
  - now apply run_entry.
Qed.

Lemma entry_wins_over_exit_witness :
  contains "exit" (lower "Entry_Exit_Long") = true ∧
  spec_classify "Entry_Exit_Long" = Entry ∧
  store_of (run (webhook_handler clock0 sample_entry_exit) store_after_entry)
    !! "BTCUSDT" = Some (entry_state clock0 sample_entry_exit).
Proof.
  pose proof (entry_wins_over_exit clock0 sample_entry_exit store_after_entry
                eq_refl eq_refl) as (Hclass & _ & Hrun).
  split; [reflexivity|]. split; [exact Hclass|].
  rewrite Hrun. unfold store_of; cbn [fst snd]. apply lookup_insert_eq.
Defined.

(** ** Exit signals *)

Lemma merge_state_fields st payload :
  merge_state (Some st) payload =
    with_entry_fields (Some (get (PositionState.direction st) "LONG"))
      (Some (get (PositionState.entry_price st) 0%float)) payload.
Proof. reflexivity. Qed.

Lemma merge_state_forgets st d e payload :
  merge_state (Some st) (with_entry_fields d e payload) =
  merge_state (Some st) payload.
Proof. reflexivity. Qed.

Lemma explicit_defaults now payload :
  format_exit_signal now payload =
  format_exit_signal now
    (with_entry_fields (Some (get (Payload.direction payload) "LONG"))
       (Some (get (Payload.entry_price payload) 0%float)) payload).
Proof. reflexivity. Qed.

(** C1. For every exit signal whose symbol has a stored state, the
    message handed to the sink is the exit message of the payload in which
    direction and entry_price are those of the stored state: its direction
    line and its risk/reward ratio are computed from them, and the
    direction and entry_price that the payload carries, whatever they are,
    change nothing in the run. *)
Theorem exit_uses_stored_entry now payload (σ : gmap string PositionState.t) st :
  contains "entry" (lower (get (Payload.signal_type payload) "")) = false →
  contains "exit" (lower (get (Payload.signal_type payload) "")) = true →
  σ !! get (Payload.symbol payload) "" = Some st →
  let direction := get (PositionState.direction st) "LONG" in
  let entry_price := get (PositionState.entry_price st) 0%float in
  let rr := risk_reward direction entry_price
              (get (Payload.tp_price payload) 0%float)
              (get (Payload.sl_price payload) 0%float) in
  ∃ message writes,
    trace_of (run (webhook_handler now payload) σ) = Sent message :: writes ∧
    forallb is_stored writes = true ∧
    message =
      format_exit_signal (now 0%nat)
        (with_entry_fields (Some direction) (Some entry_price) payload) ∧
    (∃ pre post,
       message =
         pre +:+ "<b>Направление:</b> " +:+ upper direction +:+ LF +:+ post) ∧
    (∃ pre post,
       message =
         pre +:+ "• Risk/Reward: 1:" +:+ format_f 2 (rr_ratio (fst rr) (snd rr))
             +:+ LF +:+ "• Плечо: 5x" +:+ post) ∧
    ∀ d e,
      run (webhook_handler now (with_entry_fields d e payload)) σ =
      run (webhook_handler now payload) σ.
Proof.
  intros Hentry Hexit Hst direction entry_price rr.
  rewrite (run_exit_stored now payload σ st Hentry Hexit Hst).
  rewrite merge_state_fields. fold direction entry_price.
  eexists _, _. split; [reflexivity|]. split; [reflexivity|].
  split; [reflexivity|]. split; [|split].
  - apply (exit_direction_line (now 0%nat)
             (with_entry_fields (Some direction) (Some entry_price) payload)).
  - apply (exit_ratio_line (now 0%nat)
             (with_entry_fields (Some direction) (Some entry_price) payload)).
  - intros d e.
    rewrite (run_exit_stored now (with_entry_fields d e payload) σ st Hentry Hexit Hst).
    rewrite merge_state_forgets, merge_state_fields. reflexivity.
Qed.

Lemma exit_uses_stored_entry_witness :
  store_after_entry !! "BTCUSDT" = Some (entry_state clock0 sample_entry_long) ∧
  Payload.direction sample_exit_own_fields = Some "SHORT" ∧
  ∃ message writes post,
    trace_of (run (webhook_handler clock0 sample_exit_own_fields) store_after_entry)
      = Sent message :: writes ∧
    message =
      "🟢 ПАРАМЕТРЫ ПОЗИЦИИ" +:+ LF +:+ LF +:+ "<b>Символ:</b> BTCUSDT" +:+ LF +:+
      "<b>Направление:</b> LONG" +:+ LF +:+ post ∧
    contains "• Risk/Reward: 1:0.10" message = true.
Proof.
  split; [reflexivity|]. split; [reflexivity|].
  destruct (exit_uses_stored_entry clock0 sample_exit_own_fields store_after_entry
              (entry_state clock0 sample_entry_long) eq_refl eq_refl eq_refl)
    as (message & writes & Htrace & _ & Hmessage & _).
  exists message, writes. eexists. split; [exact Htrace|].
  rewrite Hmessage. split; vm_compute; reflexivity.
Defined.

(** C7. For every exit signal whose symbol has no stored state, the
    message handed to the sink is the exit message of the payload as
    received, in which an absent direction counts as "LONG" and an absent
    entry_price as 0; nothing is written to the store, which is returned
    as it was, still without a state for the symbol. *)
Theorem exit_without_state now payload (σ : gmap string PositionState.t) :
  contains "entry" (lower (get (Payload.signal_type payload) "")) = false →
  contains "exit" (lower (get (Payload.signal_type payload) "")) = true →
  σ !! get (Payload.symbol payload) "" = None →
  let direction := get (Payload.direction payload) "LONG" in
  let entry_price := get (Payload.entry_price payload) 0%float in
  let rr := risk_reward direction entry_price
              (get (Payload.tp_price payload) 0%float)
              (get (Payload.sl_price payload) 0%float) in
  let message := format_exit_signal (now 0%nat) payload in
  run (webhook_handler now payload) σ = (ok_response, σ, [Sent message]) ∧
  store_of (run (webhook_handler now payload) σ)
    !! get (Payload.symbol payload) "" = None ∧
  message =
    format_exit_signal (now 0%nat)
      (with_entry_fields (Some direction) (Some entry_price) payload) ∧
  (∃ pre post,
     message =
       pre +:+ "<b>Направление:</b> " +:+ upper direction +:+ LF +:+ post) ∧
  (∃ pre post,
     message =
       pre +:+ "• Risk/Reward: 1:" +:+ format_f 2 (rr_ratio (fst rr) (snd rr))
           +:+ LF +:+ "• Плечо: 5x" +:+ post).
Proof.
  intros Hentry Hexit Hst direction entry_price rr message.
  rewrite (run_exit_absent now payload σ Hentry Hexit Hst).
  split; [reflexivity|]. split; [exact Hst|].
  split; [apply explicit_defaults|]. split.
  - apply exit_direction_line.
  - apply exit_ratio_line.
Qed.

Lemma exit_without_state_witness :
  run (webhook_handler clock0 sample_exit_long) ∅ =
    (ok_response, ∅, [Sent (format_exit_signal "2024-01-01T00:00:00" sample_exit_long)])
  ∧ contains "<b>Направление:</b> LONG" (format_exit_signal "2024-01-01T00:00:00" sample_exit_long) = true
  ∧ contains "• Risk/Reward: 1:1.02" (format_exit_signal "2024-01-01T00:00:00" sample_exit_long) = true.
Proof.
  split; [|split; vm_compute; reflexivity].
  exact (proj1 (exit_without_state clock0 sample_exit_long ∅ eq_refl eq_refl eq_refl)).
Defined.

(** ** Updates and unrecognised signals *)

(** C8. For every signal classified as an update, the run does not depend
    on the store: the message is the update message of the payload alone,
    the response and the trace are the same against any other store, and
    the store is returned unchanged, whatever it holds for the symbol. *)
Theorem update_ignores_store now payload (σ σ' : gmap string PositionState.t) :
  contains "entry" (lower (get (Payload.signal_type payload) "")) = false →
  contains "exit" (lower (get (Payload.signal_type payload) "")) = false →
  contains "update" (lower (get (Payload.signal_type payload) "")) = true →
  run (webhook_handler now payload) σ =
    (ok_response, σ, [Sent (format_update_signal (now 0%nat) payload)]) ∧
  response_of (run (webhook_handler now payload) σ') =
    response_of (run (webhook_handler now payload) σ) ∧
  trace_of (run (webhook_handler now payload) σ') =
    trace_of (run (webhook_handler now payload) σ) ∧
  store_of (run (webhook_handler now payload) σ') = σ'.
Proof.
  intros Hentry Hexit Hupdate.
  rewrite (run_update now payload σ Hentry Hexit Hupdate).
  rewrite (run_update now payload σ' Hentry Hexit Hupdate).
  repeat split.
Qed.

Lemma update_ignores_store_witness :
  run (webhook_handler clock0 sample_update) store_after_entry =
    (ok_response, store_after_entry,
     [Sent (format_update_signal "2024-01-01T00:00:00" sample_update)]) ∧
  trace_of (run (webhook_handler clock0 sample_update) ∅) =
    trace_of (run (webhook_handler clock0 sample_update) store_after_entry).
Proof.
  pose proof (update_ignores_store clock0 sample_update store_after_entry ∅
                eq_refl eq_refl eq_refl) as (Hrun & _ & Htrace & _).
  split; [exact Hrun | exact Htrace].
Defined.

(** C6. For every signal whose signal_type contains none of "entry",
    "exit", "update" in any case, dispatch writes nothing to the store and
    hands no message to the sink: its only effect is the warning that
    names the unknown type, and the response is the success response. *)
Theorem unrecognized_is_noop now payload (σ : gmap string PositionState.t) :
  contains "entry" (lower (get (Payload.signal_type payload) "")) = false →
  contains "exit" (lower (get (Payload.signal_type payload) "")) = false →
  contains "update" (lower (get (Payload.signal_type payload) "")) = false →
  spec_classify (get (Payload.signal_type payload) "") = Unrecognized ∧
  run (webhook_handler now payload) σ =
    (mkResponse 200 "success" "Webhook processed", σ,
     [Warned ("Unknown signal type: " +:+ get (Payload.signal_type payload) "")]) ∧
  (∀ text, Sent text ∉ trace_of (run (webhook_handler now payload) σ)) ∧
  (∀ symbol state,
     Stored symbol state ∉ trace_of (run (webhook_handler now payload) σ)).
Proof.
  intros Hentry Hexit Hupdate.
  rewrite (run_unknown now payload σ Hentry Hexit Hupdate).
  unfold spec_classify, trace_of; cbn [fst snd]. rewrite Hentry, Hexit, Hupdate.
  repeat split.
  - intros text Hin. apply list_elem_of_singleton in Hin. discriminate.
  - intros symbol state Hin. apply list_elem_of_singleton in Hin. discriminate.
Qed.

Lemma unrecognized_is_noop_witness :
  run (webhook_handler clock0 sample_ping) store_after_entry =
    (mkResponse 200 "success" "Webhook processed", store_after_entry,
     [Warned "Unknown signal type: ping"]).
Proof.
  exact (proj1 (proj2 (unrecognized_is_noop clock0 sample_ping store_after_entry
                         eq_refl eq_refl eq_refl))).
Defined.

(** ** Frame and order *)

(** The handler, split by the branch taken and by what the store holds. *)
Ltac by_branch now payload σ :=
  let Hentry := fresh "Hentry" in
  let Hexit := fresh "Hexit" in
  let Hupdate := fresh "Hupdate" in
  let Hst := fresh "Hst" in
  let st := fresh "st" in
  destruct (contains "entry" (lower (get (Payload.signal_type payload) "")))
    eqn:Hentry;
  [ rewrite (run_entry now payload σ Hentry)
  | destruct (contains "exit" (lower (get (Payload.signal_type payload) "")))
      eqn:Hexit;
    [ destruct (σ !! get (Payload.symbol payload) "") as [st|] eqn:Hst;
      [ rewrite (run_exit_stored now payload σ st Hentry Hexit Hst)
      | rewrite (run_exit_absent now payload σ Hentry Hexit Hst) ]
    | destruct (contains "update" (lower (get (Payload.signal_type payload) "")))
        eqn:Hupdate;
      [ rewrite (run_update now payload σ Hentry Hexit Hupdate)
      | rewrite (run_unknown now payload σ Hentry Hexit Hupdate) ] ] ].

(** The trace records every write: replaying it on the store before gives
    the store after. *)
Lemma trace_records_writes now payload (σ : gmap string PositionState.t) :
  store_of (run (webhook_handler now payload) σ) =
  apply_writes σ (trace_of (run (webhook_handler now payload) σ)).
Proof.
  by_branch now payload σ; unfold store_of, trace_of, apply_writes;
    cbn [fst snd foldl]; rewrite ?insert_insert_eq; reflexivity.
Qed.

(** Every state that the handler stores has a direction and an entry
    price: the defaults of lines 254 and 255 are never taken on a store
    that the handler built. *)
Lemma stored_states_complete now payload (σ : gmap string PositionState.t) :
  (∀ symbol st, σ !! symbol = Some st → complete st) →
  ∀ symbol st,
    store_of (run (webhook_handler now payload) σ) !! symbol = Some st →
    complete st.
Proof.
  intros Hσ symbol st'.
  by_branch now payload σ; unfold store_of; cbn [fst snd]; try apply Hσ.
  - rewrite lookup_insert. case_decide; [|apply Hσ].
    intros [= <-]. split; eexists; reflexivity.
  - rewrite lookup_insert. case_decide; [|apply Hσ].
    intros [= <-]. apply (Hσ _ _ Hst).
Qed.

(** C10. For every dispatched signal and every symbol other than the
    signal's own, the state stored for that symbol is the same after
    dispatch as before, on each of the four paths; every write recorded
    in the trace is keyed by the signal's symbol. *)
Theorem other_symbols_unchanged now payload (σ : gmap string PositionState.t)
    (other : string) :
  other ≠ get (Payload.symbol payload) "" →
  store_of (run (webhook_handler now payload) σ) !! other = σ !! other ∧
  ∀ symbol state,
    Stored symbol state ∈ trace_of (run (webhook_handler now payload) σ) →
    symbol = get (Payload.symbol payload) "".
Proof.
  intros Hother.
  by_branch now payload σ; unfold store_of, trace_of; cbn [fst snd];
    (split;
     [ rewrite ?lookup_insert_ne by congruence; reflexivity
     | intros symbol state Hin;
       repeat (apply elem_of_cons in Hin as [Hin|Hin]; [congruence|]);
       apply elem_of_nil in Hin; contradiction ]).
Qed.

Lemma other_symbols_unchanged_witness :
  store_of (run (webhook_handler clock0 sample_entry_short) store_after_entry)
    !! "BTCUSDT" = Some (entry_state clock0 sample_entry_long) ∧
  store_of (run (webhook_handler clock0 sample_exit_long) store_after_entry)
    !! "ETHUSDT" = None.
Proof.
  split.
  - rewrite (proj1 (other_symbols_unchanged clock0 sample_entry_short
                      store_after_entry "BTCUSDT" ltac:(discriminate))).
    reflexivity.
  - rewrite (proj1 (other_symbols_unchanged clock0 sample_exit_long
                      store_after_entry "ETHUSDT" ltac:(discriminate))).
    reflexivity.
Defined.

Lemma sends_before_stores_head (first : Event) (writes : list Event) :
  is_stored first = false → forallb is_stored writes = true →
  sends_before_stores (first :: writes).
Proof.
  intros Hfirst Hwrites i j text symbol state Hi Hj.
  destruct j as [|j].
  - cbn in Hj. injection Hj as ->. discriminate.
  - destruct i as [|i]; [lia|]. cbn in Hi.
    rewrite forallb_forall in Hwrites.
    apply list_elem_of_lookup_2, list_elem_of_In, Hwrites in Hi. discriminate.
Qed.

(** C5, as the code has it. For every inbound signal the effects of
    dispatch come in this order: first the one hand-off to the sink (or
    the warning of an unrecognised type), with a text computed from the
    store as it was on arrival, and only then the writes of the store;
    every hand-off precedes every write, and the writes recorded are the
    whole change of the store. *)
Theorem send_precedes_state_write now payload (σ : gmap string PositionState.t) :
  let tr := trace_of (run (webhook_handler now payload) σ) in
  sends_before_stores tr ∧
  (∃ first writes,
     tr = first :: writes ∧ is_stored first = false ∧
     forallb is_stored writes = true) ∧
  store_of (run (webhook_handler now payload) σ) = apply_writes σ tr.
Proof.
  intros tr.
  assert (Hshape : ∃ first writes,
             tr = first :: writes ∧ is_stored first = false ∧
             forallb is_stored writes = true).
  { subst tr.
    by_branch now payload σ; unfold trace_of; cbn [fst snd];
      eexists _, _; repeat split. }
  split; [|split].
  - destruct Hshape as (first & writes & -> & Hfirst & Hwrites).
    now apply sends_before_stores_head.
  - exact Hshape.
  - apply trace_records_writes.
Qed.

(** C5, as the specification words it, fails: on the entry payload of
    the test script the message is handed to the sink at position 0 of
    the trace and the state is written at position 1. *)
Lemma state_write_follows_send :
  trace_of (run (webhook_handler clock0 sample_entry_long) ∅) =
    [Sent (format_entry_signal "2024-01-01T00:00:00" sample_entry_long);
     Stored "BTCUSDT" (entry_state clock0 sample_entry_long)] ∧
  ¬ stores_before_sends
      (trace_of (run (webhook_handler clock0 sample_entry_long) ∅)).
Proof.
  rewrite (run_entry clock0 sample_entry_long ∅ eq_refl).
  split; [reflexivity|].
  intros H. specialize (H 0%nat 1%nat _ _ _ eq_refl eq_refl). lia.
Qed.

(** ** The numbers shown *)

Lemma format_zero_ratio : format_f 2 0%float = "0.00".
Proof. vm_compute. reflexivity. Qed.

(** C4. The exit formatter takes risk = |entry_price - sl_price| and
    reward = |tp_price - entry_price| when the direction is LONG in any
    case, risk = |sl_price - entry_price| and reward = |entry_price -
    tp_price| when it is SHORT, and the ratio reward / risk when risk > 0
    and 0 otherwise; the message shows that ratio with two decimals after
    "1:". With entry 45000, stop 44000, target 46000 and LONG the risk and
    the reward are 1000 and the line reads "1:1.00"; whenever entry_price
    equals sl_price it reads "1:0.00". *)
Theorem exit_risk_reward_ratio :
  (∀ direction entry_price tp_price sl_price,
     upper direction = "LONG" →
     risk_reward direction entry_price tp_price sl_price =
       (abs (entry_price - sl_price), abs (tp_price - entry_price))%float) ∧
  (∀ direction entry_price tp_price sl_price,
     upper direction = "SHORT" →
     risk_reward direction entry_price tp_price sl_price =
       (abs (sl_price - entry_price), abs (entry_price - tp_price))%float) ∧
  (∀ risk reward,
     rr_ratio risk reward = if (0 <? risk)%float then (reward / risk)%float else 0%float) ∧
  (∀ now data,
     let rr := risk_reward (get (Payload.direction data) "LONG")
                 (get (Payload.entry_price data) 0%float)
                 (get (Payload.tp_price data) 0%float)
                 (get (Payload.sl_price data) 0%float) in
     ∃ pre post,
       format_exit_signal now data =
         pre +:+ "• Risk/Reward: 1:" +:+ format_f 2 (rr_ratio (fst rr) (snd rr))
             +:+ LF +:+ "• Плечо: 5x" +:+ post) ∧
  risk_reward "LONG" 45000%float 46000%float 44000%float = (1000%float, 1000%float) ∧
  (∀ now, ∃ pre post,
     format_exit_signal now sample_ratio =
       pre +:+ "• Risk/Reward: 1:1.00" +:+ LF +:+ "• Плечо: 5x" +:+ post) ∧
  (∀ now data,
     (get (Payload.entry_price data) 0 =? get (Payload.sl_price data) 0)%float = true →
     ∃ pre post,
       format_exit_signal now data =
         pre +:+ "• Risk/Reward: 1:0.00" +:+ LF +:+ "• Плечо: 5x" +:+ post).
Proof.
  repeat apply conj.
  - intros direction e tp sl H. unfold risk_reward. now rewrite H.
  - intros direction e tp sl H. unfold risk_reward. now rewrite H.
  - reflexivity.
  - apply exit_ratio_line.
  - vm_compute. reflexivity.
  - intros now. destruct (exit_ratio_line now sample_ratio) as (pre & post & H).
    exists pre, post. rewrite H. reflexivity.
  - intros now data Heq.
    destruct (exit_ratio_line now data) as (pre & post & H).
    exists pre, post. rewrite H.
    apply no_risk_when_equal in Heq as [Hlong Hshort].
    unfold risk_reward, rr_ratio.
    destruct (String.eqb (upper _) "LONG"); cbn [fst snd].
    + rewrite Hlong, format_zero_ratio. reflexivity.
    + rewrite Hshort, format_zero_ratio. reflexivity.
Qed.

(** C9. In the entry message the text after the momentum is the
    below-threshold label exactly when momentum < -5.1 and the
    above-threshold label in every other case, the threshold itself
    included; the payloads of the test script with momentum -5.3 and 5.4
    give the first and the second label. *)
Theorem momentum_qualifier_threshold :
  (∀ m, momentum_qualifier m = "(ниже -5.1)" ↔ (m <? -5.1)%float = true) ∧
  (∀ m, momentum_qualifier m = "(выше +5.1)" ↔ (m <? -5.1)%float = false) ∧
  (∀ now data,
     let m := get (Payload.momentum data) 0%float in
     ∃ pre post,
       format_entry_signal now data =
         pre +:+ "• Momentum: " +:+ format_f 2 m +:+ " " +:+ momentum_qualifier m
             +:+ LF +:+ "• VWAP: $" +:+ post) ∧
  momentum_qualifier (-5.3)%float = "(ниже -5.1)" ∧
  momentum_qualifier 5.4%float = "(выше +5.1)" ∧
  momentum_qualifier (-5.1)%float = "(выше +5.1)" ∧
  contains ("• Momentum: -5.30 (ниже -5.1)" +:+ LF)
    (format_entry_signal "2024-01-01T00:00:00" sample_entry_long) = true ∧
  contains ("• Momentum: 5.40 (выше +5.1)" +:+ LF)
    (format_entry_signal "2024-01-01T00:00:00" sample_entry_short) = true.
Proof.
  repeat apply conj.
  - intros m. unfold momentum_qualifier.
    destruct (m <? -5.1)%float; split; [reflexivity | reflexivity | | ];
      discriminate.
  - intros m. unfold momentum_qualifier.
    destruct (m <? -5.1)%float; split; [ | | reflexivity | reflexivity];
      discriminate.
  - intros now data. apply entry_momentum_line.
  - reflexivity.
  - reflexivity.
  - reflexivity.
  - vm_compute. reflexivity.
  - vm_compute. reflexivity.
Qed.

(** * Further properties of the handler and of the formatters *)

(** ** The store over time *)

(** X1. The handler never removes a symbol from [position_states]: its
    keys after a request are its keys before, with the signal's symbol
    added when, and only when, the signal is an entry. *)
Theorem store_keys_only_grow now payload (σ : gmap string PositionState.t) :
  dom (store_of (run (webhook_handler now payload) σ)) =
    if contains "entry" (lower (get (Payload.signal_type payload) ""))
    then {[get (Payload.symbol payload) ""]} ∪ dom σ
    else dom σ.
Proof.
  by_branch now payload σ; unfold store_of; cbn [fst snd];
    rewrite ?dom_insert_L; try reflexivity.
  apply elem_of_dom_2 in Hst.
  apply subseteq_union_1_L, singleton_subseteq_l. exact Hst.
Qed.

Lemma handler_keeps_well_formed now payload (σ : gmap string PositionState.t) :
  (∀ symbol st, σ !! symbol = Some st → well_formed st) →
  ∀ symbol st,
    store_of (run (webhook_handler now payload) σ) !! symbol = Some st →
    well_formed st.
Proof.
  intros Hσ symbol st'.
  by_branch now payload σ; unfold store_of; cbn [fst snd]; try apply Hσ.
  - rewrite lookup_insert. case_decide; [|apply Hσ].
    intros [= Heq]; subst st'. unfold well_formed, entry_state; cbn.
    split; [eexists; reflexivity|]. split; [eexists; reflexivity|].
    split; [destruct (contains "long" _); auto|]. left. auto.
  - rewrite lookup_insert. case_decide; [|apply Hσ].
    intros [= Heq]; subst st'. destruct (Hσ _ _ Hst) as (Ht & Hp & Hd & _).
    unfold well_formed, exit_state; cbn.
    split; [exact Ht|]. split; [exact Hp|]. split; [exact Hd|].
    right. split; [reflexivity|]. split; eexists; reflexivity.
Qed.

(** X2. Whatever requests were served since the process started with an
    empty [position_states], every stored state has an entry time, an
    entry price and a direction that is LONG or SHORT, and is either
    accumulating without tp_price and sl_price or active with both. *)
Theorem reachable_states_well_formed
    (requests : list ((nat → string) * Payload.t)) symbol st :
  serve requests ∅ !! symbol = Some st → well_formed st.
Proof.
  unfold serve. revert symbol st.
  induction requests as [|r requests IH] using rev_ind; intros symbol st.
  - cbn. rewrite lookup_empty. discriminate.
  - rewrite foldl_app. cbn [foldl].
    apply handler_keeps_well_formed. exact IH.
Qed.

Lemma reachable_states_well_formed_witness :
  serve [(clock0, sample_entry_long); (clock0, sample_entry_short);
         (clock0, sample_exit_long)] ∅ !! "BTCUSDT"
  = Some (PositionState.mk (Some "active") (Some "2024-01-01T00:00:00")
            (Some 45000.5%float) (Some "LONG")
            (Some 45100%float) (Some 44000%float))
  ∧ well_formed
      (PositionState.mk (Some "active") (Some "2024-01-01T00:00:00")
         (Some 45000.5%float) (Some "LONG")
         (Some 45100%float) (Some 44000%float)).
Proof.
  assert (H : serve [(clock0, sample_entry_long); (clock0, sample_entry_short);
                     (clock0, sample_exit_long)] ∅ !! "BTCUSDT"
              = Some (PositionState.mk (Some "active") (Some "2024-01-01T00:00:00")
                        (Some 45000.5%float) (Some "LONG")
                        (Some 45100%float) (Some 44000%float)))
    by (vm_compute; reflexivity).
  split; [exact H|].
  exact (reachable_states_well_formed _ _ _ H).
Defined.

(** X3. An entry followed by an exit for the same symbol leaves one state
    for it: active, with the time, the price and the direction of the
    entry and the tp_price and sl_price of the exit; the exit message is
    the one computed with the direction and the price of the entry. *)
Theorem entry_then_exit_completes now1 now2 entry exit
    (σ : gmap string PositionState.t) :
  contains "entry" (lower (get (Payload.signal_type entry) "")) = true →
  contains "entry" (lower (get (Payload.signal_type exit) "")) = false →
  contains "exit" (lower (get (Payload.signal_type exit) "")) = true →
  get (Payload.symbol exit) "" = get (Payload.symbol entry) "" →
  let direction :=
    if contains "long" (lower (get (Payload.signal_type entry) ""))
    then "LONG" else "SHORT" in
  let entry_price := get (Payload.price entry) 0%float in
  let after :=
    run (webhook_handler now2 exit)
        (store_of (run (webhook_handler now1 entry) σ)) in
  store_of after =
    <[get (Payload.symbol entry) "" :=
        PositionState.mk (Some "active") (Some (now1 1%nat)) (Some entry_price)
          (Some direction)
          (Some (get (Payload.tp_price exit) 0%float))
          (Some (get (Payload.sl_price exit) 0%float))]> σ ∧
  ∃ writes,
    trace_of after =
      Sent (format_exit_signal (now2 0%nat)
              (with_entry_fields (Some direction) (Some entry_price) exit))
      :: writes.
Proof.
  intros Hentry Hnot Hexit Hsym direction entry_price after. subst after.
  rewrite (run_entry now1 entry σ Hentry). unfold store_of, trace_of; cbn [fst snd].
  rewrite (run_exit_stored now2 exit _ (entry_state now1 entry) Hnot Hexit)
    by (rewrite Hsym; apply lookup_insert_eq).
  cbn [fst snd]. rewrite Hsym, insert_insert_eq.
  split; [reflexivity|]. eexists. reflexivity.
Qed.

Lemma entry_then_exit_completes_witness :
  store_of (run (webhook_handler clock0 sample_exit_own_fields)
              (store_of (run (webhook_handler clock0 sample_entry_long) ∅)))
  = {[ "BTCUSDT" :=
         PositionState.mk (Some "active") (Some "2024-01-01T00:00:00")
           (Some 45000.5%float) (Some "LONG")
           (Some 45100%float) (Some 44000%float) ]}.
Proof.
  rewrite (proj1 (entry_then_exit_completes clock0 clock0 sample_entry_long
                    sample_exit_own_fields ∅ eq_refl eq_refl eq_refl eq_refl)).
  reflexivity.
Defined.

(** X4. An exit signal can be repeated: served a second time, the same
    exit leaves the store as the first one left it and hands the same
    message to the sink, whether or not a state is stored for the symbol. *)
Theorem exit_is_idempotent now payload (σ : gmap string PositionState.t) :
  contains "entry" (lower (get (Payload.signal_type payload) "")) = false →
  contains "exit" (lower (get (Payload.signal_type payload) "")) = true →
  let once := run (webhook_handler now payload) σ in
  let twice := run (webhook_handler now payload) (store_of once) in
  store_of twice = store_of once ∧
  ∃ message writes1 writes2,
    trace_of once = Sent message :: writes1 ∧
    trace_of twice = Sent message :: writes2.
Proof.
  intros Hentry Hexit once twice. subst once twice.
  destruct (σ !! get (Payload.symbol payload) "") as [st|] eqn:Hst.
  - rewrite (run_exit_stored now payload σ st Hentry Hexit Hst).
    unfold store_of, trace_of; cbn [fst snd].
    rewrite (run_exit_stored now payload _ (exit_state payload st) Hentry Hexit)
      by apply lookup_insert_eq.
    cbn [fst snd]. rewrite insert_insert_eq.
    split; [reflexivity|]. eexists _, _, _. split; reflexivity.
  - rewrite (run_exit_absent now payload σ Hentry Hexit Hst).
    unfold store_of, trace_of; cbn [fst snd].
    rewrite (run_exit_absent now payload σ Hentry Hexit Hst).
    split; [reflexivity|]. eexists _, _, _. split; reflexivity.
Qed.

Lemma exit_is_idempotent_witness :
  store_of (run (webhook_handler clock0 sample_exit_long)
              (store_of (run (webhook_handler clock0 sample_exit_long)
                           store_after_entry)))
  = store_of (run (webhook_handler clock0 sample_exit_long) store_after_entry).
Proof.
  exact (proj1 (exit_is_idempotent clock0 sample_exit_long store_after_entry
                  eq_refl eq_refl)).
Defined.

(** ** The messages *)

Lemma entry_type_present (signal_type : option string) :
  contains "entry" (lower (get signal_type "")) = true →
  ∃ s, signal_type = Some s.
Proof. destruct signal_type as [s|]; [eauto | discriminate]. Qed.

Lemma entry_header now data :
  ∃ post,
    format_entry_signal now data =
      (if contains "long" (lower (get (Payload.signal_type data) "unknown"))
       then "🟢 LONG" else "🔴 SHORT")
      +:+ " ВХОД В ПОЗИЦИЮ" +:+ LF +:+ post.
Proof.
  unfold format_entry_signal, strip. rewrite lstrip_LF.
  destruct (contains "long" _);
    (rewrite lstrip_literal by reflexivity); push_rstrip;
    eexists; reflexivity.
Qed.

(** X5. On an entry, the direction announced at the head of the message
    and the direction stored for the symbol are the same one: the message
    starts with the LONG label exactly when the stored direction is LONG,
    although the formatter and the handler read [signal_type] with
    different defaults. *)
Theorem entry_label_matches_stored_direction now payload
    (σ : gmap string PositionState.t) :
  contains "entry" (lower (get (Payload.signal_type payload) "")) = true →
  ∃ (long : bool) post st,
    trace_of (run (webhook_handler now payload) σ) =
      [Sent ((if long then "🟢 LONG" else "🔴 SHORT")
               +:+ " ВХОД В ПОЗИЦИЮ" +:+ LF +:+ post);
       Stored (get (Payload.symbol payload) "") st] ∧
    store_of (run (webhook_handler now payload) σ)
      !! get (Payload.symbol payload) "" = Some st ∧
    PositionState.direction st = Some (if long then "LONG" else "SHORT").
Proof.
  intros Hentry. rewrite (run_entry now payload σ Hentry).
  unfold trace_of, store_of; cbn [fst snd].
  destruct (entry_header (now 0%nat) payload) as (post & Hmessage).
  destruct (entry_type_present _ Hentry) as (s & Hs).
  rewrite Hmessage, Hs. cbn [get].
  exists (contains "long" (lower s)), post, (entry_state now payload).
  split; [reflexivity|]. split; [apply lookup_insert_eq|].
  unfold entry_state; cbn. rewrite Hs. reflexivity.
Qed.

Lemma entry_label_matches_stored_direction_witness :
  ∃ post st,
    trace_of (run (webhook_handler clock0 sample_entry_short) ∅) =
      [Sent ("🔴 SHORT ВХОД В ПОЗИЦИЮ" +:+ LF +:+ post); Stored "ETHUSDT" st] ∧
    PositionState.direction st = Some "SHORT".
Proof.
  destruct (entry_label_matches_stored_direction clock0 sample_entry_short ∅
              eq_refl) as (long & post & st & Htrace & _ & Hdirection).
  exists post, st.
  assert (Hlong : long = false).
  { destruct long; [|reflexivity].
    rewrite (run_entry clock0 sample_entry_short ∅ eq_refl) in Htrace.
    vm_compute in Htrace. discriminate. }
  subst long. split; [exact Htrace | exact Hdirection].
Defined.

Lemma entry_message_ignores_case now t payload s :
  Payload.signal_type payload = Some s → lower t = lower s →
  format_entry_signal now (with_signal_type (Some t) payload) =
  format_entry_signal now payload.
Proof.
  intros Hs Hlower. unfold format_entry_signal, with_signal_type; cbn.
  rewrite Hs; cbn [get]. rewrite Hlower. reflexivity.
Qed.

(** X6. Dispatch does not depend on the case of [signal_type]: a signal
    that is recognised is processed in the same way, with the same
    messages, writes and response, when its signal_type is replaced by
    any string with the same lower-case form. *)
Theorem dispatch_ignores_case now payload (t : string)
    (σ : gmap string PositionState.t) :
  lower t = lower (get (Payload.signal_type payload) "") →
  spec_classify (get (Payload.signal_type payload) "") ≠ Unrecognized →
  run (webhook_handler now (with_signal_type (Some t) payload)) σ =
  run (webhook_handler now payload) σ.
Proof.
  intros Hlower Hclass.
  destruct (Payload.signal_type payload) as [s|] eqn:Hs;
    [cbn [get] in *|exfalso; apply Hclass; reflexivity].
  assert (Hget : get (Payload.signal_type (with_signal_type (Some t) payload)) ""
                 = t) by reflexivity.
  unfold spec_classify in Hclass.
  destruct (contains "entry" (lower s)) eqn:Hentry.
  - rewrite (run_entry now (with_signal_type (Some t) payload) σ)
      by (rewrite Hget, Hlower; exact Hentry).
    rewrite (run_entry now payload σ) by (rewrite Hs; exact Hentry).
    rewrite (entry_message_ignores_case _ t payload s Hs Hlower).
    unfold entry_state. rewrite Hget, Hs, Hlower. reflexivity.
  - destruct (contains "exit" (lower s)) eqn:Hexit.
    + destruct (σ !! get (Payload.symbol payload) "") as [st|] eqn:Hst.
      * rewrite (run_exit_stored now (with_signal_type (Some t) payload) σ st)
          by (try rewrite Hget, Hlower; assumption).
        rewrite (run_exit_stored now payload σ st)
          by (try rewrite Hs; assumption).
        reflexivity.
      * rewrite (run_exit_absent now (with_signal_type (Some t) payload) σ)
          by (try rewrite Hget, Hlower; assumption).
        rewrite (run_exit_absent now payload σ)
          by (try rewrite Hs; assumption).
        reflexivity.
    + destruct (contains "update" (lower s)) eqn:Hupdate; [|congruence].
      rewrite (run_update now (with_signal_type (Some t) payload) σ)
        by (rewrite Hget, Hlower; assumption).
      rewrite (run_update now payload σ) by (rewrite Hs; assumption).
      reflexivity.
Qed.

Lemma dispatch_ignores_case_witness :
  run (webhook_handler clock0
         (with_signal_type (Some "ENTRY_Long") sample_entry_long)) ∅ =
  run (webhook_handler clock0 sample_entry_long) ∅.
Proof.
  apply (dispatch_ignores_case clock0 sample_entry_long "ENTRY_Long" ∅ eq_refl).
  discriminate.
Defined.

(** X7. The update message starts with the marker of its update_type and
    carries the symbol, the price with six decimals and the free text of
    the payload unchanged, each on the line of its own; the update_type is
    compared as it is written, so that any value other than "warning",
    "success" and "error", an absent one included, gets the info marker. *)
Theorem update_message_shape :
  (∀ now data, ∃ post,
     format_update_signal now data =
       update_emoji (get (Payload.update_type data) "info")
       +:+ " ОБНОВЛЕНИЕ ПОЗИЦИИ" +:+ LF +:+ LF
       +:+ "<b>Символ:</b> " +:+ get (Payload.symbol data) "UNKNOWN" +:+ LF
       +:+ "<b>Цена:</b> $" +:+ format_f 6 (get (Payload.price data) 0%float)
       +:+ LF +:+ LF
       +:+ get (Payload.message data) "" +:+ LF +:+ LF +:+ post) ∧
  (∀ u, u ≠ "warning" → u ≠ "success" → u ≠ "error" → update_emoji u = "ℹ️") ∧
  update_emoji "warning" = "⚠️" ∧ update_emoji "success" = "✅" ∧
  update_emoji "error" = "❌" ∧ update_emoji "Warning" = "ℹ️".
Proof.
  split; [|split; [|repeat split]].
  - intros now data. unfold format_update_signal, update_emoji, strip.
    rewrite lstrip_LF.
    destruct (String.eqb _ "warning");
      [|destruct (String.eqb _ "success"); [|destruct (String.eqb _ "error")]];
      (rewrite lstrip_literal by reflexivity); push_rstrip;
      eexists; reflexivity.
  - intros u Hw Hs He. unfold update_emoji.
    apply String.eqb_neq in Hw, Hs, He. now rewrite Hw, Hs, He.
Qed.

(** ** The numbers of the exit message *)

Lemma Prim2SF_inj (x y : float) : Prim2SF x = Prim2SF y → x = y.
Proof.
  intros H. rewrite <- (SF2Prim_Prim2SF x), <- (SF2Prim_Prim2SF y). now rewrite H.
Qed.

Lemma SFabs_binary_round s m e :
  SFabs (binary_round prec emax s m e) = SFabs (binary_round prec emax false m e).
Proof.
  unfold binary_round, binary_round_aux.
  destruct (shl_align _ _ _) as [mz ez].
  destruct (shr_fexp _ _ _ _ _) as [mrs' e'].
  destruct (shr_fexp _ _ _ _ _) as [mrs'' e''].
  destruct (shr_m mrs''); [reflexivity | | reflexivity].
  destruct (Z.leb _ _); reflexivity.
Qed.

Lemma SFabs_binary_normalize_opp z e :
  SFabs (binary_normalize prec emax (- z) e false) =
  SFabs (binary_normalize prec emax z e false).
Proof.
  destruct z as [|p|p]; cbn [Z.opp binary_normalize]; [reflexivity| |].
  - apply SFabs_binary_round.
  - symmetry. apply SFabs_binary_round.
Qed.

Lemma SFabs_SFsub_sym (x y : spec_float) :
  SFabs (SFsub prec emax x y) = SFabs (SFsub prec emax y x).
Proof.
  destruct x as [sx|sx| |sx mx ex], y as [sy|sy| |sy my ey];
    try (destruct sx); try (destruct sy); try reflexivity.
  all: unfold SFsub; rewrite (Z.min_comm ey ex);
    match goal with
    | |- SFabs (binary_normalize _ _ (?a - ?b) _ _) = _ =>
        replace (a - b) with (- (b - a)) by lia
    end;
    apply SFabs_binary_normalize_opp.
Qed.

Lemma abs_sub_sym (x y : float) : abs (x - y) = abs (y - x).
Proof.
  apply Prim2SF_inj. rewrite !abs_spec, !sub_spec. apply SFabs_SFsub_sym.
Qed.

(** X8. The risk and the reward of the exit message do not depend on the
    direction: the two branches of lines 120 to 125 compute the same two
    distances, so that a LONG and a SHORT position with the same prices
    show the same ratio. *)
Theorem risk_reward_ignores_direction direction1 direction2
    entry_price tp_price sl_price :
  risk_reward direction1 entry_price tp_price sl_price =
  risk_reward direction2 entry_price tp_price sl_price.
Proof.
  unfold risk_reward.
  rewrite (abs_sub_sym sl_price entry_price), (abs_sub_sym entry_price tp_price).
  destruct (String.eqb _ _), (String.eqb _ _); reflexivity.
Qed.

Lemma SFabs_not_negative (x : spec_float) : SFltb (SFabs x) (S754_zero false) = false.
Proof. destruct x as [s|s| |s m e]; reflexivity. Qed.




(** * The whole service *)

Ltac service_unfold :=
  unfold Service.webhook_handler, Service.startup_event,
    Service.test_notification, Service.init_telegram_bot,
    Service.send_telegram_message, Service.health_check,
    Service.try_except, Service.raise,
    Service.logger_info, Service.logger_warning, Service.logger_error,
    Service.emit, Service.get_telegram_bot, Service.set_telegram_bot,
    Service.states_get, Service.states_setitem, Service.states_update,
    mbind, Service.S_bind, mret, Service.S_ret.

Ltac service_step :=
  cbn [Service.telegram_bot Service.position_states Service.effects
       Service.str negb fst snd].

Lemma calls_snoc (l : list Service.Effect) (e : Service.Effect) :
  Service.calls (l ++ [e]) =
  (Service.calls l ++ (if Service.is_call e then [e] else []))%list.
Proof. unfold Service.calls. rewrite List.filter_app. reflexivity. Qed.

Lemma assignments_snoc (l : list Service.Effect) (e : Service.Effect) :
  assignments (l ++ [e]) =
  (assignments l ++ match e with
                    | Service.Assigned symbol state => [(symbol, state)]
                    | _ => []
                    end)%list.
Proof. unfold assignments. rewrite omap_app. destruct e; reflexivity. Qed.

Lemma run_unauthorized env ending now request app :
  get (Service.authorization request) "" ≠ "Bearer " +:+ Service.WEBHOOK_SECRET env →
  Service.webhook_handler env ending now request app =
    (inl (Service.HTTPException 500
            (Service.str_HTTPException env 401 "Unauthorized")),
     Service.mkApp (Service.telegram_bot app) (Service.position_states app)
       (Service.effects app ++
        [Service.Logged "WARNING" "Unauthorized webhook attempt";
         Service.Logged "ERROR"
           ("Error processing webhook: " +:+
            Service.str_HTTPException env 401 "Unauthorized")])).
Proof.
  intros Hauth. apply String.eqb_neq in Hauth.
  service_unfold. rewrite Hauth. service_step.
  rewrite <- app_assoc. reflexivity.
Qed.

(** X10. A request to /webhook whose Authorization header is absent or is
    not "Bearer " followed by the secret is answered with status 500, not
    401: the HTTPException(401) raised inside the [try] is caught by the
    [except Exception] of the same handler and raised again as a 500 whose
    detail is its text. Whatever its body, the request assigns nothing in
    [position_states], calls the client not once, and leaves two lines in
    the log. *)
Theorem unauthorized_is_answered_500 env ending now request app :
  get (Service.authorization request) "" ≠ "Bearer " +:+ Service.WEBHOOK_SECRET env →
  let after := Service.webhook_handler env ending now request app in
  after.1 =
    inl (Service.HTTPException 500
           (Service.str_HTTPException env 401 "Unauthorized")) ∧
  Service.position_states after.2 = Service.position_states app ∧
  Service.telegram_bot after.2 = Service.telegram_bot app ∧
  assignments (Service.effects after.2) = assignments (Service.effects app) ∧
  Service.calls (Service.effects after.2) = Service.calls (Service.effects app) ∧
  Service.effects after.2 =
    (Service.effects app ++
     [Service.Logged "WARNING" "Unauthorized webhook attempt";
      Service.Logged "ERROR"
        ("Error processing webhook: " +:+
         Service.str_HTTPException env 401 "Unauthorized")])%list.
Proof.
  intros Hauth after. subst after.
  rewrite (run_unauthorized env ending now request app Hauth). cbn [fst snd].
  cbn [Service.position_states Service.telegram_bot Service.effects].
  repeat split.
  - unfold assignments. rewrite omap_app. cbn. apply app_nil_r.
  - unfold Service.calls. rewrite List.filter_app. cbn. apply app_nil_r.
Qed.

Lemma unauthorized_is_answered_500_witness :
  (Service.webhook_handler sample_env Service.Returns clock0
     (Service.mkRequest (Some "Bearer wrong") (inr sample_entry_long))
     sample_app).1
  = inl (Service.HTTPException 500 "Unauthorized") ∧
  Service.position_states
    (Service.webhook_handler sample_env Service.Returns clock0
       (Service.mkRequest None (inr sample_entry_short)) sample_app).2
  = store_after_entry.
Proof.
  split.
  - exact (proj1 (unauthorized_is_answered_500 sample_env Service.Returns clock0
                    (Service.mkRequest (Some "Bearer wrong") (inr sample_entry_long))
                    sample_app ltac:(discriminate))).
  - exact (proj1 (proj2 (unauthorized_is_answered_500 sample_env Service.Returns
                           clock0
                           (Service.mkRequest None (inr sample_entry_short))
                           sample_app ltac:(discriminate)))).
Defined.

(** X11. An authorised request whose body does not parse is answered with
    status 500 and the text of the parse error; it is logged once and
    touches neither [position_states] nor the client. *)
Theorem unparsable_body_is_answered_500 env ending now request text app :
  get (Service.authorization request) "" = "Bearer " +:+ Service.WEBHOOK_SECRET env →
  Service.json request = inl text →
  Service.webhook_handler env ending now request app =
    (inl (Service.HTTPException 500 text),
     Service.mkApp (Service.telegram_bot app) (Service.position_states app)
       (Service.effects app ++
        [Service.Logged "ERROR" ("Error processing webhook: " +:+ text)])).
Proof.
  intros Hauth Hjson. apply String.eqb_eq in Hauth.
  service_unfold. rewrite Hauth, Hjson. service_step. reflexivity.
Qed.

Lemma unparsable_body_is_answered_500_witness :
  (Service.webhook_handler sample_env Service.Returns clock0
     (Service.mkRequest (Some "Bearer your-secret-key")
        (inl "Expecting value: line 1 column 1 (char 0)"))
     sample_app).1
  = inl (Service.HTTPException 500 "Expecting value: line 1 column 1 (char 0)").
Proof.
  rewrite (unparsable_body_is_answered_500 sample_env Service.Returns clock0
             (Service.mkRequest (Some "Bearer your-secret-key")
                (inl "Expecting value: line 1 column 1 (char 0)"))
             "Expecting value: line 1 column 1 (char 0)"
             sample_app eq_refl eq_refl).
  reflexivity.
Defined.

(** The branches of the service handler, reduced under what is known of
    the request, of the client and of the store. *)
Ltac service_run Hauth Hjson :=
  service_unfold; rewrite Hauth, Hjson; service_step;
  repeat (progress
            (repeat match goal with
                    | H : contains _ _ = _ |- _ => rewrite H
                    | H : Service.telegram_bot _ = _ |- _ => rewrite H
                    | H : Service.position_states _ !! _ = _ |- _ => rewrite H
                    end;
             rewrite ?lookup_insert_eq; service_step)).

(** X12. For an authorised request with a payload, when the client is not
    initialised or its call ends without an exception other than a
    TelegramError, the service answers and stores exactly as the handler
    does with an ideal sink: a delivery that fails changes neither the
    success response nor the write of the state. The client is called
    once for each message handed over when it is initialised, and never
    otherwise. *)
Theorem delivery_failure_is_tolerated env ending now request payload app :
  get (Service.authorization request) "" = "Bearer " +:+ Service.WEBHOOK_SECRET env →
  Service.json request = inr payload →
  (Service.telegram_bot app = None ∨ ∀ text, ending ≠ Service.RaisesOther text) →
  let ideal := run (webhook_handler now payload) (Service.position_states app) in
  let after := Service.webhook_handler env ending now request app in
  after.1 = inr (response_of ideal) ∧
  Service.position_states after.2 = store_of ideal ∧
  Service.telegram_bot after.2 = Service.telegram_bot app ∧
  assignments (Service.effects after.2) =
    (assignments (Service.effects app) ++ writes_of (trace_of ideal))%list ∧
  Service.calls (Service.effects after.2) =
    (Service.calls (Service.effects app) ++
     match Service.telegram_bot app with
     | Some _ =>
         map (λ text, Service.Called (Service.TELEGRAM_CHANNEL_ID env) text "HTML" ending)
             (handed_over (trace_of ideal))
     | None => []
     end)%list.
Proof.
  intros Hauth Hjson Hending ideal after. subst ideal after.
  apply String.eqb_eq in Hauth.
  by_branch now payload (Service.position_states app);
    unfold response_of, store_of, trace_of; cbn [fst snd];
    destruct (Service.telegram_bot app) as [bot|] eqn:Hbot;
    try (destruct ending as [|text|text];
         [ | | exfalso; destruct Hending as [H|H];
               [discriminate | exact (H text eq_refl)] ]);
    service_run Hauth Hjson.
  all: rewrite ?insert_insert_eq, ?calls_snoc, ?assignments_snoc;
    cbn [Service.is_call handed_over writes_of omap map];
    rewrite <- ?app_assoc, ?app_nil_r; repeat split; reflexivity.
Qed.

Lemma delivery_failure_is_tolerated_witness :
  let after :=
    Service.webhook_handler sample_env
      (Service.RaisesTelegramError "Timed out") clock0
      (sample_request sample_entry_short) sample_app in
  after.1 = inr ok_response ∧
  Service.position_states after.2 !! "ETHUSDT" =
    Some (entry_state clock0 sample_entry_short).
Proof.
  destruct (delivery_failure_is_tolerated sample_env
              (Service.RaisesTelegramError "Timed out") clock0
              (sample_request sample_entry_short) sample_entry_short sample_app
              eq_refl eq_refl ltac:(right; discriminate))
    as (Hresponse & Hstore & _).
  split.
  - rewrite Hresponse. reflexivity.
  - rewrite Hstore, (run_entry clock0 sample_entry_short _ eq_refl).
    apply lookup_insert_eq.
Defined.

(** X13. When the client call raises an exception that is not a
    TelegramError, an authorised entry, exit or update is answered with
    status 500 and the text of the exception, and [position_states] stays
    as it was: the handler sends before it writes, so the entry or the
    tp_price and sl_price of the signal are lost. *)
Theorem client_crash_loses_the_signal env text now request payload app bot :
  get (Service.authorization request) "" = "Bearer " +:+ Service.WEBHOOK_SECRET env →
  Service.json request = inr payload →
  spec_classify (get (Payload.signal_type payload) "") ≠ Unrecognized →
  Service.telegram_bot app = Some bot →
  let after :=
    Service.webhook_handler env (Service.RaisesOther text) now request app in
  after.1 = inl (Service.HTTPException 500 text) ∧
  Service.position_states after.2 = Service.position_states app ∧
  assignments (Service.effects after.2) = assignments (Service.effects app).
Proof.
  intros Hauth Hjson Hclass Hbot after. subst after.
  apply String.eqb_eq in Hauth. unfold spec_classify in Hclass.
  destruct (contains "entry" (lower (get (Payload.signal_type payload) "")))
    eqn:Hentry;
    [|destruct (contains "exit" (lower (get (Payload.signal_type payload) "")))
        eqn:Hexit;
      [|destruct (contains "update" (lower (get (Payload.signal_type payload) "")))
          eqn:Hupdate; [|congruence]]];
    service_run Hauth Hjson;
    rewrite ?assignments_snoc, ?app_nil_r; repeat split; reflexivity.
Qed.

Lemma client_crash_loses_the_signal_witness :
  let after :=
    Service.webhook_handler sample_env
      (Service.RaisesOther "This HTTPXRequest is not initialized!") clock0
      (sample_request sample_entry_short) sample_app in
  after.1 =
    inl (Service.HTTPException 500 "This HTTPXRequest is not initialized!") ∧
  Service.position_states after.2 !! "ETHUSDT" = None.
Proof.
  destruct (client_crash_loses_the_signal sample_env
              "This HTTPXRequest is not initialized!" clock0
              (sample_request sample_entry_short) sample_entry_short sample_app
              (Service.mkClient "123456:ABC")
              eq_refl eq_refl ltac:(discriminate) eq_refl)
    as (Hresult & Hstore & _).
  split; [exact Hresult|]. rewrite Hstore. reflexivity.
Defined.

(** Whatever the request, the handler of the service leaves the client
    alone and changes [position_states] by at most one assignment. *)
Lemma webhook_store_step env ending now request app :
  let after := Service.webhook_handler env ending now request app in
  Service.telegram_bot after.2 = Service.telegram_bot app ∧
  (Service.position_states after.2 = Service.position_states app ∨
   ∃ symbol state,
     Service.position_states after.2 =
       <[symbol := state]> (Service.position_states app)).
Proof.
  intros after. subst after.
  destruct (String.eqb (get (Service.authorization request) "")
              ("Bearer " +:+ Service.WEBHOOK_SECRET env)) eqn:Hauth;
    [|apply String.eqb_neq in Hauth;
      rewrite (run_unauthorized env ending now request app Hauth);
      split; [reflexivity | left; reflexivity]].
  destruct (Service.json request) as [text|payload] eqn:Hjson;
    [service_run Hauth Hjson; split; [reflexivity | left; reflexivity]|].
  destruct (Service.telegram_bot app) as [bot|] eqn:Hbot;
    [destruct ending as [|text|text]|];
    (destruct (contains "entry" (lower (get (Payload.signal_type payload) "")))
       eqn:Hentry;
     [|destruct (contains "exit" (lower (get (Payload.signal_type payload) "")))
         eqn:Hexit;
       [destruct (Service.position_states app !! get (Payload.symbol payload) "")
          as [st|] eqn:Hst
       |destruct (contains "update" (lower (get (Payload.signal_type payload) "")))
          eqn:Hupdate]]);
    service_run Hauth Hjson; rewrite ?insert_insert_eq;
    (split; [reflexivity|]);
    first [ left; reflexivity | right; eexists _, _; reflexivity ].
Qed.

(** X14. The number that /health reports as active_positions is the
    number of symbols in [position_states], whatever their status; a
    request to /webhook, however it ends, never lowers it and raises it by
    at most one, and it does not change the client status reported. *)
Theorem health_count_never_decreases env ending now request app :
  let before := (Service.health_check app).1 in
  let after :=
    (Service.health_check
       (Service.webhook_handler env ending now request app).2).1 in
  ∃ h h',
    before = inr h ∧ after = inr h' ∧
    Service.active_positions h = size (Service.position_states app) ∧
    (Service.active_positions h ≤ Service.active_positions h'
       ≤ S (Service.active_positions h))%nat ∧
    Service.health_telegram_bot h' = Service.health_telegram_bot h ∧
    Service.health_status h' = "healthy".
Proof.
  intros before after. subst before after.
  destruct (webhook_store_step env ending now request app) as (Hbot & Hstore).
  unfold Service.health_check; cbn [fst]. eexists _, _.
  split; [reflexivity|]. split; [reflexivity|].
  cbn [Service.active_positions Service.health_telegram_bot Service.health_status].
  rewrite Hbot. split; [reflexivity|]. split; [|split; reflexivity].
  destruct Hstore as [-> | (symbol & state & ->)]; [lia|].
  rewrite map_size_insert.
  destruct (Service.position_states app !! symbol); cbn; lia.
Qed.

Lemma health_count_example :
  (Service.health_check
     (Service.webhook_handler sample_env Service.Returns clock0
        (sample_request sample_entry_short) sample_app).2).1
  = inr (Service.mkHealth "healthy" "ok" 2).
Proof. vm_compute. reflexivity. Qed.

(** ** Start-up and the test endpoint *)

(** X15. The start-up handler never raises, whatever the token and
    however the client behaves; it builds the client exactly when the
    token is set and [Bot(token=...)] does not raise, and only then calls
    it, once, with the start-up message; [position_states] is untouched. *)
Theorem startup_never_raises env ending app :
  let after := Service.startup_event env ending app in
  after.1 = inr tt ∧
  Service.position_states after.2 = Service.position_states app ∧
  Service.telegram_bot after.2 =
    (if client_is_built env
     then Some (Service.mkClient (Service.TELEGRAM_BOT_TOKEN env))
     else Service.telegram_bot app) ∧
  Service.calls (Service.effects after.2) =
    (Service.calls (Service.effects app) ++
     if client_is_built env
     then [Service.Called (Service.TELEGRAM_CHANNEL_ID env) startup_message
             "HTML" ending]
     else [])%list.
Proof.
  intros after. subst after. unfold client_is_built, startup_message.
  service_unfold. service_step.
  destruct (String.eqb (Service.TELEGRAM_BOT_TOKEN env) ""); service_step.
  - rewrite !calls_snoc. cbn [Service.is_call]. rewrite !app_nil_r.
    repeat split.
  - destruct (Service.Bot_raises env (Service.TELEGRAM_BOT_TOKEN env));
      service_step.
    + rewrite !calls_snoc. cbn [Service.is_call]. rewrite !app_nil_r.
      repeat split.
    + destruct ending; service_step;
        rewrite !calls_snoc; cbn [Service.is_call]; rewrite ?app_nil_r;
        repeat split.
Qed.

(** X16. The test endpoint answers success exactly when the client is
    initialised and its call returns; when the client is not initialised
    or the call raises a TelegramError it raises HTTPException(500), and
    any other exception of the call passes through unhandled. It assigns
    nothing in [position_states] and leaves the client as it is. *)
Theorem test_notification_outcome env ending now app :
  let after := Service.test_notification env ending now app in
  after.1 =
    match Service.telegram_bot app, ending with
    | Some _, Service.Returns =>
        inr [("status", "success"); ("message", "Test notification sent")]
    | Some _, Service.RaisesOther text => inl (Service.Error text)
    | _, _ =>
        inl (Service.HTTPException 500 "Failed to send test notification")
    end ∧
  Service.position_states after.2 = Service.position_states app ∧
  Service.telegram_bot after.2 = Service.telegram_bot app ∧
  assignments (Service.effects after.2) = assignments (Service.effects app).
Proof.
  intros after. subst after. service_unfold. service_step.
  destruct (Service.telegram_bot app) as [bot|] eqn:Hbot; service_step;
    [destruct ending; service_step|];
    rewrite ?assignments_snoc, ?app_nil_r; repeat split; assumption.
Qed.

(** ** A service without a client *)

Lemma webhook_without_client env ending now request app :
  Service.telegram_bot app = None →
  let after := Service.webhook_handler env ending now request app in
  Service.telegram_bot after.2 = None ∧
  Service.calls (Service.effects after.2) = Service.calls (Service.effects app).
Proof.
  intros Hbot after. subst after.
  destruct (String.eqb (get (Service.authorization request) "")
              ("Bearer " +:+ Service.WEBHOOK_SECRET env)) eqn:Hauth;
    [|apply String.eqb_neq in Hauth;
      rewrite (run_unauthorized env ending now request app Hauth);
      cbn [fst snd Service.telegram_bot Service.effects];
      split; [exact Hbot|];
      unfold Service.calls; rewrite List.filter_app; cbn;
      rewrite app_nil_r; reflexivity].
  destruct (Service.json request) as [text|payload] eqn:Hjson;
    [service_run Hauth Hjson; split; [reflexivity|];
     rewrite !calls_snoc; cbn [Service.is_call]; rewrite !app_nil_r; reflexivity|].
  destruct (contains "entry" (lower (get (Payload.signal_type payload) "")))
    eqn:Hentry;
    [|destruct (contains "exit" (lower (get (Payload.signal_type payload) "")))
        eqn:Hexit;
      [destruct (Service.position_states app !! get (Payload.symbol payload) "")
         as [st|] eqn:Hst
      |destruct (contains "update" (lower (get (Payload.signal_type payload) "")))
         eqn:Hupdate]];
    service_run Hauth Hjson; (split; [reflexivity|]);
    rewrite !calls_snoc; cbn [Service.is_call]; rewrite !app_nil_r; reflexivity.
Qed.

Lemma webhooks_without_client env requests app :
  Service.telegram_bot app = None →
  Service.telegram_bot (serve_webhooks env requests app) = None ∧
  Service.calls (Service.effects (serve_webhooks env requests app)) =
    Service.calls (Service.effects app).
Proof.
  intros Hbot. unfold serve_webhooks.
  induction requests as [|r requests IH] using rev_ind; [split; [exact Hbot | reflexivity]|].
  rewrite foldl_app. cbn [foldl]. destruct IH as (IHbot & IHcalls).
  destruct (webhook_without_client env r.1.1 r.1.2 r.2 _ IHbot) as (Hbot' & Hcalls').
  split; [exact Hbot'|]. rewrite Hcalls'. exact IHcalls.
Qed.

(** X17. When TELEGRAM_BOT_TOKEN is not set, the service starts without a
    client and stays without one: whatever webhooks it then receives, and
    whatever it answers, it never calls Telegram, and every authorised
    signal is still answered with the success response. *)
Theorem silent_without_token env ending requests :
  Service.TELEGRAM_BOT_TOKEN env = "" →
  let started := (Service.startup_event env ending Service.initial).2 in
  let final := serve_webhooks env requests started in
  Service.telegram_bot final = None ∧
  Service.calls (Service.effects final) = [] ∧
  ∀ ending' now request payload,
    get (Service.authorization request) "" = "Bearer " +:+ Service.WEBHOOK_SECRET env →
    Service.json request = inr payload →
    (Service.webhook_handler env ending' now request final).1 = inr ok_response.
Proof.
  intros Htoken started final.
  assert (Hstarted : Service.telegram_bot started = None ∧
                     Service.calls (Service.effects started) = []).
  { subst started. service_unfold. rewrite Htoken. service_step.
    split; reflexivity. }
  destruct Hstarted as (Hbot & Hcalls).
  destruct (webhooks_without_client env requests started Hbot) as (Hbot' & Hcalls').
  fold final in Hbot', Hcalls'.
  split; [exact Hbot'|]. split; [rewrite Hcalls'; exact Hcalls|].
  intros ending' now request payload Hauth Hjson.
  apply String.eqb_eq in Hauth.
  destruct (contains "entry" (lower (get (Payload.signal_type payload) "")))
    eqn:Hentry;
    [|destruct (contains "exit" (lower (get (Payload.signal_type payload) "")))
        eqn:Hexit;
      [destruct (Service.position_states final !! get (Payload.symbol payload) "")
         as [st|] eqn:Hst
      |destruct (contains "update" (lower (get (Payload.signal_type payload) "")))
         eqn:Hupdate]];
    service_run Hauth Hjson; reflexivity.
Qed.

Lemma silent_without_token_witness :
  let final :=
    serve_webhooks sample_env_no_token
      [(Service.Returns, clock0, sample_request sample_entry_long);
       (Service.Returns, clock0, sample_request sample_exit_long)]
      (Service.startup_event sample_env_no_token Service.Returns
         Service.initial).2 in
  Service.calls (Service.effects final) = [] ∧
  Service.position_states final !! "BTCUSDT" =
    Some (PositionState.mk (Some "active") (Some "2024-01-01T00:00:00")
            (Some 45000.5%float) (Some "LONG")
            (Some 45100%float) (Some 44000%float)).
Proof.
  split.
  - exact (proj1 (proj2 (silent_without_token sample_env_no_token Service.Returns
                           [(Service.Returns, clock0, sample_request sample_entry_long);
                            (Service.Returns, clock0, sample_request sample_exit_long)]
                           eq_refl))).
  - vm_compute. reflexivity.
Defined.

(** ** The texts in full *)





(** X18. The entry message is the template of lines 91 to 105 with the
    fields filled in and without its first and last line feed, for every
    payload: [strip] removes nothing else, so each field is shown as it
    was received, with six decimals for the price and the vwap and two
    for the momentum, and with the defaults "UNKNOWN", "7m", 0 and the
    clock for what is absent. *)
Theorem entry_message_text now data :
  format_entry_signal now data =
    (if contains "long" (lower (get (Payload.signal_type data) "unknown"))
     then "🟢 LONG" else "🔴 SHORT") +:+ " ВХОД В ПОЗИЦИЮ" +:+ LF +:+
    LF +:+
    "<b>Символ:</b> " +:+ get (Payload.symbol data) "UNKNOWN" +:+ LF +:+
    "<b>Таймфрейм:</b> " +:+ get (Payload.timeframe data) "7m" +:+ LF +:+
    "<b>Цена:</b> $" +:+ format_f 6 (get (Payload.price data) 0%float) +:+ LF +:+
    LF +:+
    "📊 <b>Индикаторы:</b>" +:+ LF +:+
    "• Momentum: " +:+ format_f 2 (get (Payload.momentum data) 0%float) +:+ " " +:+
      momentum_qualifier (get (Payload.momentum data) 0%float) +:+ LF +:+
    "• VWAP: $" +:+ format_f 6 (get (Payload.vwap data) 0%float) +:+ LF +:+
    LF +:+
    "⏰ <b>Время:</b> " +:+ get (Payload.timestamp data) now +:+ LF +:+
    LF +:+
    "<i>Начат набор позиции. Ожидайте уведомление с TP/SL...</i>".
Proof.
  unfold format_entry_signal, strip. rewrite lstrip_LF.
  destruct (contains "long" _);
    (rewrite lstrip_literal by reflexivity); push_rstrip; reflexivity.
Qed.

